(** * Bitseclab Copilot client (client/app.py): settings store, backend
      client and export writer, embedded as state-passing functions.

    The two settings files, the local files opened for upload and the remote
    backend are the only state the program touches.  The files are fields of
    [World]; everything the program does to the outside is appended to
    [trace]; the backend and the local file system are oracles of [Env]. *)

From Stdlib Require Import List ZArith NArith Bool Ascii String Lia.
From Stdlib Require Import DecimalString SpecFloat.
Import ListNotations.

Local Open Scope N_scope.
Set Warnings "-register-all".

(** ** Python strings *)

(** A Python [str] is a sequence of Unicode code points. *)
Definition codepoint := N.
Definition pystr := list codepoint.

(** An ASCII literal of the source. *)
Definition py (s : string) : pystr := map N_of_ascii (list_ascii_of_string s).

(** The two pictographs of the status messages. *)
Definition CHECK_MARK : codepoint := 0x2705.
Definition CROSS_MARK : codepoint := 0x274C.

Definition codepoint_eqb (a b : codepoint) : bool := N.eqb a b.

Fixpoint pystr_eqb (a b : pystr) : bool :=
  match a, b with
  | [], [] => true
  | x :: a', y :: b' => codepoint_eqb x y && pystr_eqb a' b'
  | _, _ => false
  end.

(** [str.isspace] on one code point: the characters [str.strip()] removes. *)
Definition isspace (c : codepoint) : bool :=
  ((0x09 <=? c) && (c <=? 0x0D)) || ((0x1C <=? c) && (c <=? 0x20))
  || (c =? 0x85) || (c =? 0xA0) || (c =? 0x1680)
  || ((0x2000 <=? c) && (c <=? 0x200A))
  || (c =? 0x2028) || (c =? 0x2029) || (c =? 0x202F) || (c =? 0x205F)
  || (c =? 0x3000).

Fixpoint lstrip (s : pystr) : pystr :=
  match s with
  | c :: s' => if isspace c then lstrip s' else s
  | [] => []
  end.

Definition rstrip (s : pystr) : pystr := rev (lstrip (rev s)).

(** [s.strip()] *)
Definition strip (s : pystr) : pystr := rstrip (lstrip s).

(** [s.startswith(prefix)] *)
Fixpoint startswith (s prefix : pystr) {struct prefix} : bool :=
  match prefix, s with
  | [], _ => true
  | p :: prefix', c :: s' => codepoint_eqb c p && startswith s' prefix'
  | _ :: _, [] => false
  end.

(** [sep.join(items)] *)
Fixpoint join (sep : pystr) (items : list pystr) : pystr :=
  match items with
  | [] => []
  | [x] => x
  | x :: rest => x ++ sep ++ join sep rest
  end.

(** The line boundaries of [str.splitlines]. *)
Definition is_linebreak (c : codepoint) : bool :=
  ((0x0A <=? c) && (c <=? 0x0D)) || ((0x1C <=? c) && (c <=? 0x1E))
  || (c =? 0x85) || (c =? 0x2028) || (c =? 0x2029).

(** [splitlines_from cur s]: the lines of [s], the line being read so far
    held reversed in [cur]; a carriage return followed by a line feed is one
    boundary, and no empty line follows a final boundary. *)
Fixpoint splitlines_from (cur : pystr) (s : pystr) : list pystr :=
  match s with
  | [] => match cur with [] => [] | _ => [rev cur] end
  | c :: s' =>
      if is_linebreak c then
        match s' with
        | d :: s'' =>
            if (c =? 0x0D) && (d =? 0x0A)
            then rev cur :: splitlines_from [] s''
            else rev cur :: splitlines_from [] s'
        | [] => [rev cur]
        end
      else splitlines_from (c :: cur) s'
  end.

(** [s.splitlines()] *)
Definition splitlines (s : pystr) : list pystr := splitlines_from [] s.

(** [xs or [""]]: an empty list is falsy. *)
Definition or_default {A} (xs dflt : list A) : list A :=
  match xs with [] => dflt | _ => xs end.

(** [str(n)] of an integer. *)
Definition str_int (z : Z) : pystr := py (NilZero.string_of_int (Z.to_int z)).

(** Text-mode reading translates every carriage return, alone or before a
    line feed, into a line feed (the files are opened by [Path.read_text]). *)
Fixpoint universal_newlines (s : pystr) : pystr :=
  match s with
  | [] => []
  | c :: s' =>
      if c =? 0x0D then
        match s' with
        | d :: s'' => if d =? 0x0A then 0x0A :: universal_newlines s''
                      else 0x0A :: universal_newlines s'
        | [] => [0x0A]
        end
      else c :: universal_newlines s'
  end.

(** ** Values exchanged with the backend *)

(** A decoded JSON document ([Response.json()]).  A number is an [int] or a
    [float], the latter an IEEE 754 binary64 value; an object holds its items
    in iteration order. *)
Inductive json : Type :=
| JNull
| JBool (b : bool)
| JInt (z : Z)
| JStr (s : pystr)
| JArr (items : list json)
| JObj (items : list (pystr * json))
| JFloat (x : spec_float).

(** A [requests.Response]: [body] is what [json()] decodes, [None] when the
    payload is not JSON. *)
Record Response : Type := mkResponse
  { status_code : Z; text : pystr; body : option json }.

(** The two shapes of [requests.post] the client uses. *)
Inductive Request : Type :=
| PostJson (url : pystr) (payload : list (pystr * json)) (timeout : Z)
| PostMultipart (url : pystr) (data : list (pystr * pystr))
    (field filename : pystr) (content : list N) (content_type : pystr)
    (timeout : Z).

(** Python exceptions the modelled code can see. *)
Inductive exn : Type :=
| GrError (msg : pystr)
| RequestException (msg : pystr)
| HTTPError (r : Response)
| JSONDecodeError (r : Response)
| KeyError (key : pystr)
| TypeError (msg : pystr)
| AttributeError (msg : pystr)
| OSError (path : pystr)
| UnicodeEncodeError (s : pystr)
| OverflowError (msg : pystr).

Inductive PostResult : Type :=
| PostRaises (e : exn)
| PostOk (r : Response).

(** What lies outside the program: the backend (its answer may depend on the
    requests it has already received), the local files offered for upload,
    [str()] of an exception and of a decoded JSON value, [Path(p).name], and
    the directory the exports are written to. *)
Record Env : Type := mkEnv
  { backend : list Request -> Request -> PostResult;
    open_rb : pystr -> option (list N);
    exn_str : exn -> pystr;
    json_str : json -> pystr;
    path_name : pystr -> pystr;
    DATA_DIR : pystr }.

(** ** The world *)

Inductive FileId : Type := BACKEND_FILE | LICENSE_FILE.

Inductive Event : Type :=
| EvExists (f : FileId)
| EvRead (f : FileId)
| EvWrite (f : FileId) (s : pystr)
| EvOpen (path : pystr)
| EvPost (r : Request).

(** The settings files ([None]: the file does not exist) and everything done
    so far, oldest first. *)
Record World : Type := mkWorld
  { backend_url_txt : option pystr;
    license_key_txt : option pystr;
    trace : list Event }.

Definition file_of (w : World) (f : FileId) : option pystr :=
  match f with
  | BACKEND_FILE => backend_url_txt w
  | LICENSE_FILE => license_key_txt w
  end.

Definition log (e : Event) (w : World) : World :=
  mkWorld (backend_url_txt w) (license_key_txt w) (trace w ++ [e]).

Definition store (f : FileId) (s : pystr) (w : World) : World :=
  match f with
  | BACKEND_FILE => mkWorld (Some s) (license_key_txt w) (trace w)
  | LICENSE_FILE => mkWorld (backend_url_txt w) (Some s) (trace w)
  end.

(** The HTTP requests of a trace, oldest first. *)
Fixpoint posts (t : list Event) : list Request :=
  match t with
  | [] => []
  | EvPost r :: t' => r :: posts t'
  | _ :: t' => posts t'
  end.

(** The settings files touched by a trace. *)
Fixpoint touches (f : FileId) (t : list Event) : bool :=
  match t with
  | [] => false
  | EvExists g :: t' | EvRead g :: t' | EvWrite g _ :: t' =>
      match f, g with
      | BACKEND_FILE, BACKEND_FILE | LICENSE_FILE, LICENSE_FILE => true
      | _, _ => touches f t'
      end
  | _ :: t' => touches f t'
  end.

(** ** Computations: state passing with exceptions *)

Inductive Outcome (A : Type) : Type :=
| Returned (a : A)
| Raised (e : exn).
Arguments Returned {A} a.
Arguments Raised {A} e.

Definition M (A : Type) : Type := World -> Outcome A * World.

Definition ret {A} (a : A) : M A := fun w => (Returned a, w).
Definition raise {A} (e : exn) : M A := fun w => (Raised e, w).

Definition bind {A B} (m : M A) (k : A -> M B) : M B :=
  fun w => match m w with
           | (Returned a, w') => k a w'
           | (Raised e, w') => (Raised e, w')
           end.

(** [try: m  except Exception as e: h e] *)
Definition try_except {A} (m : M A) (h : exn -> M A) : M A :=
  fun w => match m w with
           | (Returned a, w') => (Returned a, w')
           | (Raised e, w') => h e w'
           end.

Declare Scope py_scope.
Delimit Scope py_scope with py.
Notation "x <- m ;; k" := (bind m (fun x => k))
  (at level 100, m at next level, right associativity) : py_scope.
Notation "m ;; k" := (bind m (fun _ => k))
  (at level 100, right associativity) : py_scope.
Local Open Scope py_scope.

Definition raised {A} (o : Outcome A) : bool :=
  match o with Raised _ => true | Returned _ => false end.

(** ** File and network primitives *)

(** [Path.exists()] *)
Definition exists_ (f : FileId) : M bool :=
  fun w => (Returned (match file_of w f with Some _ => true | None => false end),
            log (EvExists f) w).

(** [Path.read_text(encoding="utf-8")]; the callers test [exists()] first. *)
Definition read_text (f : FileId) : M pystr :=
  fun w => match file_of w f with
           | Some s => (Returned (universal_newlines s), log (EvRead f) w)
           | None => (Raised (OSError []), log (EvRead f) w)
           end.

(** A code point UTF-8 cannot encode: a surrogate. *)
Definition is_surrogate (c : codepoint) : bool := (0xD800 <=? c) && (c <=? 0xDFFF).

(** A string the [utf-8] codec encodes: no surrogate in it. *)
Definition encodable (s : pystr) : bool := forallb (fun c => negb (is_surrogate c)) s.

(** [Path.write_text(s, encoding="utf-8")]: the file is opened for writing,
    which creates or empties it, and then the text is encoded and written;
    a text that cannot be encoded raises and leaves the file empty. *)
Definition write_text (f : FileId) (s : pystr) : M unit :=
  fun w =>
    if encodable s
    then (Returned tt, log (EvWrite f s) (store f s w))
    else (Raised (UnicodeEncodeError s), log (EvWrite f []) (store f [] w)).

(** [open(path, "rb")] *)
Definition open_ (E : Env) (path : pystr) : M (list N) :=
  fun w => match open_rb E path with
           | Some fh => (Returned fh, log (EvOpen path) w)
           | None => (Raised (OSError path), log (EvOpen path) w)
           end.

(** [requests.post(...)]: the backend sees the requests made before. *)
Definition requests_post (E : Env) (req : Request) : M Response :=
  fun w => match backend E (posts (trace w)) req with
           | PostOk r => (Returned r, log (EvPost req) w)
           | PostRaises e => (Raised e, log (EvPost req) w)
           end.

(** [Response.raise_for_status()]: an [HTTPError] for the 4xx and 5xx codes. *)
Definition raise_for_status (r : Response) : M unit :=
  if ((400 <=? status_code r) && (status_code r <? 600))%Z
  then raise (HTTPError r) else ret tt.

(** [Response.json()] *)
Definition response_json (r : Response) : M json :=
  match body r with
  | Some j => ret j
  | None => raise (JSONDecodeError r)
  end.

(** ** Python operations on decoded values *)

Fixpoint lookup (key : pystr) (items : list (pystr * json)) : option json :=
  match items with
  | [] => None
  | (k, v) :: rest => if pystr_eqb k key then Some v else lookup key rest
  end.

(** [data[key]] with a string key *)
Definition getitem (data : json) (key : pystr) : M json :=
  match data with
  | JObj items =>
      match lookup key items with
      | Some v => ret v
      | None => raise (KeyError key)
      end
  | JArr _ => raise (TypeError (py "list indices must be integers or slices, not str"))
  | JStr _ => raise (TypeError (py "string indices must be integers"))
  | _ => raise (TypeError (py "object is not subscriptable"))
  end.

(** [data.get(key, default)] *)
Definition dict_get (data : json) (key : pystr) (default : json) : M json :=
  match data with
  | JObj items =>
      ret (match lookup key items with Some v => v | None => default end)
  | _ => raise (AttributeError (py "object has no attribute 'get'"))
  end.

(** A Python number as the running total holds it: an [int], or a [float]
    once a float has been added. *)
Inductive number : Type :=
| PyInt (z : Z)
| PyFloat (x : spec_float).

(** Addition of two floats, rounded to the nearest binary64. *)
Definition float_add (x y : spec_float) : spec_float := SFadd 53 1024 x y.

(** [float(z)]: the nearest binary64, [None] when [z] is too large for one. *)
Definition float_of_int (z : Z) : option spec_float :=
  match binary_normalize 53 1024 z 0 false with
  | S754_infinity _ => None
  | x => Some x
  end.

Definition int_too_large : exn :=
  OverflowError (py "int too large to convert to float").

(** [x + z] with [x] a float and [z] an int *)
Definition float_add_int (x : spec_float) (z : Z) : M number :=
  match float_of_int z with
  | Some y => ret (PyFloat (float_add x y))
  | None => raise int_too_large
  end.

(** [z + y] with [z] an int and [y] a float *)
Definition int_add_float (z : Z) (y : spec_float) : M number :=
  match float_of_int z with
  | Some x => ret (PyFloat (float_add x y))
  | None => raise int_too_large
  end.

(** [total += v] on a numeric total: a boolean counts as 0 or 1, and
    anything that is not a number raises. *)
Definition iadd (total : number) (v : json) : M number :=
  match total, v with
  | PyInt t, JInt z => ret (PyInt (t + z))
  | PyInt t, JBool b => ret (PyInt (t + Z.b2z b))
  | PyInt t, JFloat y => int_add_float t y
  | PyFloat x, JInt z => float_add_int x z
  | PyFloat x, JBool b => float_add_int x (Z.b2z b)
  | PyFloat x, JFloat y => ret (PyFloat (float_add x y))
  | _, _ => raise (TypeError (py "unsupported operand type(s) for +="))
  end.

Fixpoint all_str (items : list json) : option (list pystr) :=
  match items with
  | [] => Some []
  | JStr s :: rest =>
      match all_str rest with Some l => Some (s :: l) | None => None end
  | _ :: _ => None
  end.

(** [sep.join(v)]: over the items of a list, the characters of a string or
    the keys of an object. *)
Definition join_value (sep : pystr) (v : json) : M pystr :=
  match v with
  | JArr items =>
      match all_str items with
      | Some l => ret (join sep l)
      | None => raise (TypeError (py "sequence item: expected str instance"))
      end
  | JStr s => ret (join sep (map (fun c => [c]) s))
  | JObj items => ret (join sep (map fst items))
  | _ => raise (TypeError (py "can only join an iterable"))
  end.

(** ** Local settings store *)

Definition is_empty (s : pystr) : bool :=
  match s with [] => true | _ => false end.

Definition SAVED : pystr := CHECK_MARK :: py " Saved".
Definition DEFAULT_BACKEND : pystr := py "http://localhost:8000".

Definition save_backend (url : pystr) : M pystr :=
  if negb (startswith url (py "http"))
  then raise (GrError (py "Enter a full URL, e.g., http://localhost:8000"))
  else (write_text BACKEND_FILE (strip url) ;;
        ret SAVED).

Definition save_license (key : pystr) : M pystr :=
  if (List.length (strip key) <? 8)%nat
  then raise (GrError (py "License looks too short."))
  else (write_text LICENSE_FILE (strip key) ;;
        ret SAVED).

Definition get_backend : M pystr :=
  there <- exists_ BACKEND_FILE ;;
  if there : bool
  then (s <- read_text BACKEND_FILE ;; ret (strip s))
  else ret DEFAULT_BACKEND.

Definition get_license : M pystr :=
  there <- exists_ LICENSE_FILE ;;
  if there : bool
  then (s <- read_text LICENSE_FILE ;; ret (strip s))
  else ret [].

(** ** Backend client *)

Definition NO_LICENSE : pystr := CROSS_MARK :: py " No license saved".
Definition SAVE_KEY_FIRST : pystr := py "Save a license key first.".
Definition NO_FILE : pystr := py "No file selected.".

Definition license_request (url key : pystr) : Request :=
  PostJson url [(py "key", JStr key)] 15.

Definition check_license (E : Env) : M pystr :=
  base <- get_backend ;;
  let url := base ++ py "/api/license/verify" in
  key <- get_license ;;
  if is_empty key then ret NO_LICENSE
  else
    try_except
      (resp <- requests_post E (license_request url key) ;;
       raise_for_status resp ;;
       data <- response_json resp ;;
       plan <- getitem data (py "plan") ;;
       quota <- getitem data (py "quota_remaining") ;;
       ret (CHECK_MARK :: py " Plan: " ++ json_str E plan
              ++ py " | Remaining: " ++ json_str E quota))
      (fun e => ret (CROSS_MARK :: py " " ++ exn_str E e)).

Definition upload_request (E : Env) (url key f : pystr) (fh : list N) : Request :=
  PostMultipart url [(py "key", key)] (py "file") (path_name E f) fh
    (py "application/octet-stream") 120.

Definition upload_failed (f txt : pystr) : pystr :=
  CROSS_MARK :: py " Upload failed for " ++ f ++ py ": " ++ txt.


(** [str(n)] of a number; that of a float is the one of the decoded value. *)
Definition str_number (E : Env) (n : number) : pystr :=
  match n with
  | PyInt z => str_int z
  | PyFloat x => json_str E (JFloat x)
  end.

(** The success line for any total; [uploaded] is the one of an integer. *)
Definition uploaded_line (E : Env) (total_chunks : number) : pystr :=
  CHECK_MARK :: py " Uploaded. " ++ str_number E total_chunks ++ py " chunks added.".

(** The [for f in files] loop of [upload_file], [total_chunks] threaded. *)
Fixpoint upload_loop (E : Env) (url key : pystr) (files : list pystr)
    (total_chunks : number) : M pystr :=
  match files with
  | [] => ret (uploaded_line E total_chunks)
  | f :: rest =>
      fh <- open_ E f ;;
      r <- requests_post E (upload_request E url key f fh) ;;
      if negb (status_code r =? 200)%Z
      then ret (upload_failed f (text r))
      else
        (data <- response_json r ;;
         added <- dict_get data (py "chunks_added") (JInt 0) ;;
         total_chunks' <- iadd total_chunks added ;;
         upload_loop E url key rest total_chunks')
  end.

(** [files] is what the upload widget hands over: [None] when nothing was
    chosen, else the names of the chosen files. *)
Definition upload_file (E : Env) (files : option (list pystr)) : M pystr :=
  match files with
  | None | Some [] => ret NO_FILE
  | Some fs =>
      base <- get_backend ;;
      let url := base ++ py "/api/upload" in
      key <- get_license ;;
      if is_empty key then raise (GrError SAVE_KEY_FIRST)
      else upload_loop E url key fs (PyInt 0)
  end.

Definition chat_request (url key msg mode : pystr) : Request :=
  PostJson url [(py "key", JStr key); (py "message", JStr msg);
                (py "mode", JStr mode)] 120.

Definition chat (E : Env) (msg mode : pystr) : M (json * pystr) :=
  base <- get_backend ;;
  let url := base ++ py "/api/chat" in
  key <- get_license ;;
  if is_empty key then raise (GrError SAVE_KEY_FIRST)
  else
    try_except
      (r <- requests_post E (chat_request url key msg mode) ;;
       raise_for_status r ;;
       data <- response_json r ;;
       answer <- getitem data (py "answer") ;;
       cites <- dict_get data (py "citations") (JArr []) ;;
       joined <- join_value (py ", ") cites ;;
       ret (answer, py "Citations: " ++ joined))
      (fun e => ret (JStr (CROSS_MARK :: py " " ++ exn_str E e), [])).

(** ** Export writer *)

Record Sheet : Type := mkSheet { title : pystr; rows : list (list pystr) }.

(** A workbook is its sheets in order; a worksheet variable of the source is
    the position of the sheet it refers to. *)
Definition Workbook := list Sheet.

(** [Workbook()]: one empty sheet, the active one. *)
Definition Workbook_new : Workbook := [mkSheet (py "Sheet") []].
Definition active : nat := 0.

Fixpoint update_sheet (wb : Workbook) (i : nat) (f : Sheet -> Sheet) : Workbook :=
  match wb, i with
  | [], _ => []
  | s :: wb', O => f s :: wb'
  | s :: wb', S i' => s :: update_sheet wb' i' f
  end.

(** [ws.title = t] *)
Definition set_title (wb : Workbook) (ws : nat) (t : pystr) : Workbook :=
  update_sheet wb ws (fun s => mkSheet t (rows s)).

(** [ws.append(row)] *)
Definition append (wb : Workbook) (ws : nat) (row : list pystr) : Workbook :=
  update_sheet wb ws (fun s => mkSheet (title s) (rows s ++ [row])).

(** [wb.create_sheet(t)]: the workbook and the new sheet, added last. *)
Definition create_sheet (wb : Workbook) (t : pystr) : Workbook * nat :=
  (wb ++ [mkSheet t []], List.length wb).

Definition headers : list pystr :=
  [py "Control No"; py "Control Name"; py "Question";
   py "Example how to demonstrate question"; py "Implementation";
   py "Evidence"; py "C"; py "NC"; py "OFI"; py "NA"; py "Recommendations"].

Definition path_join (dir name : pystr) : pystr := dir ++ py "/" ++ name.

(** [export_docx]: the path returned and the paragraphs saved there; [now]
    is the clock reading [time.strftime('%Y%m%d-%H%M%S')]. *)
Definition export_docx (E : Env) (now content : pystr) : pystr * list pystr :=
  let out := path_join (DATA_DIR E) (py "finding_" ++ now ++ py ".docx") in
  let doc := fold_left (fun doc line => doc ++ [line])
               (or_default (splitlines content) [[]]) [] in
  (out, doc).

(** [export_xlsx]: the path returned and the workbook saved there. *)
Definition export_xlsx (E : Env) (now content : pystr) : pystr * Workbook :=
  let out := path_join (DATA_DIR E) (py "export_" ++ now ++ py ".xlsx") in
  let wb := Workbook_new in
  let ws1 := active in
  let wb := set_title wb ws1 (py "Findings") in
  let wb := append wb ws1 headers in
  let '(wb, ws2) := create_sheet wb (py "Output") in
  let wb := append wb ws2 [py "Output"] in
  let wb := fold_left (fun wb line => append wb ws2 [line])
              (or_default (splitlines content) [[]]) wb in
  (out, wb).

(** The sheet of a workbook with a given title. *)
Fixpoint sheet_named (wb : Workbook) (t : pystr) : option Sheet :=
  match wb with
  | [] => None
  | s :: wb' => if pystr_eqb (title s) t then Some s else sheet_named wb' t
  end.

(** ** Running an action *)

Definition run {A} (m : M A) (w : World) : Outcome A * World := m w.
Definition result {A} (m : M A) (w : World) : Outcome A := fst (m w).
Definition after {A} (m : M A) (w : World) : World := snd (m w).

(** The events an action adds to the trace of [w]. *)
Definition events {A} (m : M A) (w : World) : list Event :=
  skipn (List.length (trace w)) (trace (after m w)).

(** ** Vocabulary of the statements *)

(** What the backend answers to requests sent one after another, [hist]
    being the requests it has received before. *)
Fixpoint answers (E : Env) (hist : list Request) (reqs : list Request)
    : list PostResult :=
  match reqs with
  | [] => []
  | q :: rest => backend E hist q :: answers E (hist ++ [q]) rest
  end.

(** The bytes [open(f, "rb")] yields, for a file that can be opened. *)
Definition contents (E : Env) (f : pystr) : list N :=
  match open_rb E f with Some fh => fh | None => [] end.

(** The upload requests of a list of files, in order. *)
Definition upload_requests (E : Env) (url key : pystr) (fs : list pystr)
    : list Request :=
  map (fun f => upload_request E url key f (contents E f)) fs.

(** The number [r.json().get("chunks_added", 0)] adds to the total, when
    the body is an object and the field, if present, an integer or a
    boolean. *)
Definition chunks_added (r : Response) : option Z :=
  match body r with
  | Some (JObj items) =>
      match lookup (py "chunks_added") items with
      | None => Some 0%Z
      | Some (JInt z) => Some z
      | Some (JBool b) => Some (Z.b2z b)
      | Some _ => None
      end
  | _ => None
  end.

(** A response from which [total += r.json().get("chunks_added", 0)] cannot
    take a number: the body is not JSON or not an object, or the field is
    present and neither a number nor a boolean. *)
Definition unusable (r : Response) : bool :=
  match body r with
  | Some (JObj items) =>
      match lookup (py "chunks_added") items with
      | Some JNull | Some (JStr _) | Some (JArr _) | Some (JObj _) => true
      | _ => false
      end
  | _ => true
  end.

Definition chunks (r : Response) : Z :=
  match chunks_added r with Some z => z | None => 0%Z end.

Definition sum_chunks (rs : list Response) : Z :=
  fold_right (fun r acc => (chunks r + acc)%Z) 0%Z rs.

(** What [get_backend] and [get_license] make of a settings file, and the
    file events they leave. *)
Definition setting (dflt : pystr) (file : option pystr) : pystr :=
  match file with
  | Some s => strip (universal_newlines s)
  | None => dflt
  end.

Definition probe (f : FileId) (file : option pystr) : list Event :=
  match file with
  | Some _ => [EvExists f; EvRead f]
  | None => [EvExists f]
  end.

Definition logs (evs : list Event) (w : World) : World :=
  mkWorld (backend_url_txt w) (license_key_txt w) (trace w ++ evs).

(** The events of reading both settings, as every backend action does first. *)
Definition read_settings (w : World) : list Event :=
  probe BACKEND_FILE (backend_url_txt w) ++ probe LICENSE_FILE (license_key_txt w).

(** A computation that leaves the world alone and does not look at it. *)
Definition quiet {A} (m : M A) : Prop := exists o, forall w, m w = (o, w).

(** A response the upload loop carries on from. *)
Definition accepted (r : Response) : bool :=
  (status_code r =? 200)%Z
  && match chunks_added r with Some _ => true | None => false end.

Definition is_2xx (r : Response) : bool :=
  ((200 <=? status_code r) && (status_code r <? 300))%Z.

Definition is_4xx_5xx (r : Response) : bool :=
  ((400 <=? status_code r) && (status_code r <? 600))%Z.

(** The line an [except Exception as e] branch renders. *)
Definition failure (E : Env) (e : exn) : pystr := CROSS_MARK :: py " " ++ exn_str E e.

(** How many rows of a sheet are the given row. *)
Fixpoint row_eqb (a b : list pystr) : bool :=
  match a, b with
  | [], [] => true
  | x :: a', y :: b' => pystr_eqb x y && row_eqb a' b'
  | _, _ => false
  end.

Definition count_rows (row : list pystr) (s : Sheet) : nat :=
  List.length (filter (row_eqb row) (rows s)).

(** ** The export buttons *)



(** ** More vocabulary *)

(** A computation that leaves both settings files as they are. *)
Definition readonly {A} (m : M A) : Prop :=
  forall w f, file_of (snd (m w)) f = file_of w f.


(** A string of blanks only. *)
Definition blank (s : pystr) : bool := forallb isspace s.

Definition LF : codepoint := 0x0A.
Definition CR : codepoint := 0x0D.

(** ** Sample surroundings *)

Definition sample_json_str (j : json) : pystr :=
  match j with
  | JStr s => s
  | JInt z => str_int z
  | JBool true => py "True"
  | JBool false => py "False"
  | JNull => py "None"
  | _ => py "..."
  end.

Definition sample_exn_str (e : exn) : pystr :=
  match e with
  | GrError m | RequestException m | TypeError m | AttributeError m => m
  | HTTPError r => str_int (status_code r) ++ py " Error"
  | JSONDecodeError _ => py "Expecting value"
  | KeyError k => py "'" ++ k ++ py "'"
  | OSError p => py "No such file: " ++ p
  | UnicodeEncodeError _ => py "surrogates not allowed"
  | OverflowError m => m
  end.

Definition sample_env (net : list Request -> Request -> PostResult) : Env :=
  mkEnv net (fun _ => Some [1; 2; 3]) sample_exn_str sample_json_str
    (fun p => p) (py "/app/data").

Definition no_settings : World := mkWorld None None [].
Definition with_key : World := mkWorld None (Some (py "abcdefgh")) [].

Definition license_body : json :=
  JObj [(py "plan", JStr (py "pro")); (py "quota_remaining", JInt 5)].

(** A backend that answers every request with the given status and body. *)
Definition always (status : Z) (txt : pystr) (b : option json)
    : list Request -> Request -> PostResult :=
  fun _ _ => PostOk (mkResponse status txt b).

(** A backend that cannot be reached. *)
Definition unreachable : list Request -> Request -> PostResult :=
  fun _ _ => PostRaises (RequestException (py "Connection refused")).

(** An upload response that adds four chunks. *)
Definition four_chunks : Response :=
  mkResponse 200 (py "ok") (Some (JObj [(py "chunks_added", JInt 4)])).

(** A backend that accepts the first upload and refuses the later ones. *)
Definition first_only : list Request -> Request -> PostResult :=
  fun hist _ =>
    match hist with
    | [] => PostOk four_chunks
    | _ => PostOk (mkResponse 413 (py "too large") None)
    end.



(** A backend that accepts the first upload and cannot be reached after. *)
Definition first_then_unreachable : list Request -> Request -> PostResult :=
  fun hist _ =>
    match hist with
    | [] => PostOk four_chunks
    | _ => PostRaises (RequestException (py "Connection refused"))
    end.




(** The float 1.5. *)
Definition one_and_a_half : spec_float := binary_normalize 53 1024 3 (-1) false.

Definition chat_body : json :=
  JObj [(py "answer", JStr (py "42"));
        (py "citations", JArr [JStr (py "a.pdf"); JStr (py "b.pdf")])].

(** * Proofs *)

(** ** Strings *)

Lemma codepoint_eqb_eq (a b : codepoint) : codepoint_eqb a b = true <-> a = b.
Proof. apply N.eqb_eq. Qed.

Lemma lstrip_snoc (l : pystr) (c : codepoint) :
  isspace c = false -> lstrip (l ++ [c]) = lstrip l ++ [c].
Proof.
  intros Hc. induction l as [|d l IH]; simpl.
  - now rewrite Hc.
  - destruct (isspace d); [exact IH | reflexivity].
Qed.

Lemma rstrip_cons (c : codepoint) (s : pystr) :
  isspace c = false -> rstrip (c :: s) = c :: rstrip s.
Proof.
  intros Hc. unfold rstrip. simpl rev.
  rewrite (lstrip_snoc _ c Hc), rev_app_distr. reflexivity.
Qed.

(** A string that begins with [http] has the shape [h t t p ...]. *)
Lemma startswith_http_shape (s : pystr) :
  startswith s (py "http") = true ->
  exists rest, s = 104 :: 116 :: 116 :: 112 :: rest.
Proof.
  unfold py; simpl. intros H.
  do 4 (destruct s as [|? s]; simpl in H; [discriminate|];
        apply andb_prop in H; destruct H as [?%codepoint_eqb_eq H]).
  subst. eauto.
Qed.

(** Trimming keeps a leading [http]: what the raw test accepts, the trimmed
    test accepts as well. *)
Lemma startswith_http_strip (s : pystr) :
  startswith s (py "http") = true -> startswith (strip s) (py "http") = true.
Proof.
  intros H. destruct (startswith_http_shape s H) as [rest ->].
  unfold strip. simpl lstrip.
  rewrite !rstrip_cons by reflexivity. reflexivity.
Qed.


(** ** Traces *)

Lemma posts_app (t u : list Event) : posts (t ++ u) = posts t ++ posts u.
Proof.
  induction t as [|e t IH]; simpl; trivial.
  destruct e; simpl; now rewrite ?IH.
Qed.

Lemma skipn_length_app {A} (l l' : list A) : skipn (List.length l) (l ++ l') = l'.
Proof. induction l; simpl; auto. Qed.

Lemma logs_logs (a b : list Event) (w : World) :
  logs b (logs a w) = logs (a ++ b) w.
Proof. unfold logs; simpl. now rewrite app_assoc. Qed.

Lemma log_logs (e : Event) (w : World) : log e w = logs [e] w.
Proof. reflexivity. Qed.

Lemma logs_nil (w : World) : logs [] w = w.
Proof. destruct w; unfold logs; simpl. now rewrite app_nil_r. Qed.

Lemma events_trace {A} (m : M A) (w : World) (evs : list Event) :
  trace (after m w) = trace w ++ evs -> events m w = evs.
Proof.
  unfold events. intros ->. apply skipn_length_app.
Qed.

Lemma events_logs {A} (m : M A) (w : World) (evs : list Event) :
  after m w = logs evs w -> events m w = evs.
Proof.
  intros H. apply events_trace. now rewrite H.
Qed.

Lemma events_same {A} (m : M A) (w : World) : after m w = w -> events m w = [].
Proof.
  intros H. apply events_logs. now rewrite logs_nil.
Qed.

(** ** Settings store *)

Lemma get_backend_run (w : World) :
  get_backend w =
  (Returned (setting DEFAULT_BACKEND (backend_url_txt w)),
   logs (probe BACKEND_FILE (backend_url_txt w)) w).
Proof.
  destruct w as [[b|] l t]; trivial.
  unfold get_backend, bind, exists_, read_text, ret, log, logs; simpl.
  now rewrite <- app_assoc.
Qed.

Lemma get_license_run (w : World) :
  get_license w =
  (Returned (setting [] (license_key_txt w)),
   logs (probe LICENSE_FILE (license_key_txt w)) w).
Proof.
  destruct w as [b [l|] t]; trivial.
  unfold get_license, bind, exists_, read_text, ret, log, logs; simpl.
  now rewrite <- app_assoc.
Qed.

Lemma save_backend_reject (url : pystr) (w : World) :
  startswith url (py "http") = false ->
  save_backend url w =
  (Raised (GrError (py "Enter a full URL, e.g., http://localhost:8000")), w).
Proof. unfold save_backend. now intros ->. Qed.

Lemma save_backend_accept (url : pystr) (w : World) :
  startswith url (py "http") = true ->
  encodable (strip url) = true ->
  save_backend url w =
  (Returned SAVED,
   log (EvWrite BACKEND_FILE (strip url)) (store BACKEND_FILE (strip url) w)).
Proof.
  unfold save_backend, bind, write_text. now intros -> ->.
Qed.

Lemma save_backend_garbled (url : pystr) (w : World) :
  startswith url (py "http") = true ->
  encodable (strip url) = false ->
  save_backend url w =
  (Raised (UnicodeEncodeError (strip url)),
   log (EvWrite BACKEND_FILE []) (store BACKEND_FILE [] w)).
Proof.
  unfold save_backend, bind, write_text. now intros -> ->.
Qed.

(** [save_backend] raises its validation error exactly on a URL that, as
    typed, does not begin with [http]. *)
Lemma save_backend_invalid_iff (url : pystr) (w : World) :
  result (save_backend url) w =
    Raised (GrError (py "Enter a full URL, e.g., http://localhost:8000")) <->
  startswith url (py "http") = false.
Proof.
  unfold result. destruct (startswith url (py "http")) eqn:H.
  - destruct (encodable (strip url)) eqn:He.
    + rewrite (save_backend_accept url w H He). simpl. split; discriminate.
    + rewrite (save_backend_garbled url w H He). simpl. split; discriminate.
  - rewrite (save_backend_reject url w H). simpl. now split.
Qed.

Lemma save_license_reject (key : pystr) (w : World) :
  (List.length (strip key) < 8)%nat ->
  save_license key w = (Raised (GrError (py "License looks too short.")), w).
Proof.
  intros H. unfold save_license.
  now apply Nat.ltb_lt in H as ->.
Qed.

Lemma save_license_accept (key : pystr) (w : World) :
  (8 <= List.length (strip key))%nat ->
  encodable (strip key) = true ->
  save_license key w =
  (Returned SAVED,
   log (EvWrite LICENSE_FILE (strip key)) (store LICENSE_FILE (strip key) w)).
Proof.
  intros H He. unfold save_license, bind, write_text. rewrite He.
  now apply Nat.ltb_ge in H as ->.
Qed.

Lemma save_license_garbled (key : pystr) (w : World) :
  (8 <= List.length (strip key))%nat ->
  encodable (strip key) = false ->
  save_license key w =
  (Raised (UnicodeEncodeError (strip key)),
   log (EvWrite LICENSE_FILE []) (store LICENSE_FILE [] w)).
Proof.
  intros H He. unfold save_license, bind, write_text. rewrite He.
  now apply Nat.ltb_ge in H as ->.
Qed.

(** C1 (defect).  [save_backend] tests the URL as typed and trims it only
    when writing: a URL with a leading blank begins with [http] once trimmed,
    yet the call raises the validation error and writes nothing. *)
Theorem save_backend_leading_blank (w : World) :
  let url := py " http://localhost:8000" in
  strip url = py "http://localhost:8000" /\
  startswith (strip url) (py "http") = true /\
  run (save_backend url) w =
  (Raised (GrError (py "Enter a full URL, e.g., http://localhost:8000")), w).
Proof.
  repeat split.
Qed.

(** C6, as the code has it.  [save_license key] raises the validation error
    exactly when the trimmed key has fewer than 8 characters, and then
    leaves the world, hence the license file, as it was; otherwise, when the
    trimmed key can be encoded as UTF-8, it writes the trimmed key to the
    license file, leaves the backend file alone and returns the saved
    message. *)
Theorem save_license_spec (key : pystr) (w : World) :
  (result (save_license key) w = Raised (GrError (py "License looks too short.")) <->
   (List.length (strip key) < 8)%nat) /\
  ((List.length (strip key) < 8)%nat ->
   run (save_license key) w =
     (Raised (GrError (py "License looks too short.")), w) /\
   license_key_txt (after (save_license key) w) = license_key_txt w) /\
  ((8 <= List.length (strip key))%nat ->
   encodable (strip key) = true ->
   result (save_license key) w = Returned SAVED /\
   license_key_txt (after (save_license key) w) = Some (strip key) /\
   backend_url_txt (after (save_license key) w) = backend_url_txt w /\
   events (save_license key) w = [EvWrite LICENSE_FILE (strip key)]).
Proof.
  unfold run, result, after.
  destruct (Nat.lt_ge_cases (List.length (strip key)) 8) as [Hlt|Hge].
  - rewrite (save_license_reject key w Hlt). simpl.
    repeat split; trivial; intros; trivial; lia.
  - split; [|split].
    + split; [|lia].
      destruct (encodable (strip key)) eqn:He.
      * rewrite (save_license_accept key w Hge He). discriminate.
      * rewrite (save_license_garbled key w Hge He). discriminate.
    + intros Hlt. lia.
    + intros _ He. pose proof (save_license_accept key w Hge He) as Hrun.
      rewrite Hrun. repeat split.
      apply events_trace. unfold after. rewrite Hrun. reflexivity.
Qed.


(** C9.  After [save_license "abcdefgh"], which succeeds, [get_license]
    returns exactly ["abcdefgh"]; and while no backend file exists
    [get_backend] returns the literal ["http://localhost:8000"]. *)
Theorem settings_round_trip (w : World) (lic : option pystr) (t : list Event) :
  result (save_license (py "abcdefgh")) w = Returned SAVED /\
  result get_license (after (save_license (py "abcdefgh")) w) =
    Returned (py "abcdefgh") /\
  result get_backend (mkWorld None lic t) = Returned (py "http://localhost:8000").
Proof.
  unfold result, after. rewrite get_license_run. repeat split.
Qed.

(** ** Backend client *)

Lemma posts_probe (f : FileId) (file : option pystr) : posts (probe f file) = [].
Proof. now destruct file. Qed.

Lemma result_get_backend (w : World) (base : pystr) :
  result get_backend w = Returned base ->
  base = setting DEFAULT_BACKEND (backend_url_txt w).
Proof. unfold result. rewrite get_backend_run. simpl. congruence. Qed.

Lemma result_get_license (w : World) (key : pystr) :
  result get_license w = Returned key ->
  key = setting [] (license_key_txt w).
Proof. unfold result. rewrite get_license_run. simpl. congruence. Qed.

Lemma posts_read_settings (w : World) : posts (read_settings w) = [].
Proof. unfold read_settings. now rewrite posts_app, !posts_probe. Qed.

(** Both settings are read, backend first, before anything else happens. *)
Lemma settings_then {A} (k : pystr -> pystr -> M A) (w : World) :
  bind get_backend (fun base => bind get_license (fun key => k base key)) w =
  k (setting DEFAULT_BACKEND (backend_url_txt w))
    (setting [] (license_key_txt w))
    (logs (read_settings w) w).
Proof.
  unfold bind. rewrite get_backend_run, get_license_run.
  simpl license_key_txt. now rewrite logs_logs.
Qed.

Lemma upload_file_some (E : Env) (f : pystr) (fs : list pystr) (w : World) :
  upload_file E (Some (f :: fs)) w =
  (let base := setting DEFAULT_BACKEND (backend_url_txt w) in
   let key := setting [] (license_key_txt w) in
   if is_empty key then raise (GrError SAVE_KEY_FIRST)
   else upload_loop E (base ++ py "/api/upload") key (f :: fs) (PyInt 0))
    (logs (read_settings w) w).
Proof.
  unfold upload_file.
  exact (settings_then
           (fun base key =>
              if is_empty key then raise (GrError SAVE_KEY_FIRST)
              else upload_loop E (base ++ py "/api/upload") key (f :: fs) (PyInt 0)) w).
Qed.

(** C10.  With no file list, or an empty one, [upload_file] returns
    ["No file selected."] and leaves the world exactly as it was, whatever
    the settings files hold (also when no license key is stored): nothing is
    raised, the license file is neither probed nor read, and no HTTP request
    is made. *)
Theorem upload_file_nothing_selected (E : Env) (w : World) :
  run (upload_file E None) w = (Returned NO_FILE, w) /\
  run (upload_file E (Some [])) w = (Returned NO_FILE, w) /\
  events (upload_file E None) w = [] /\
  events (upload_file E (Some [])) w = [] /\
  touches LICENSE_FILE (events (upload_file E (Some [])) w) = false /\
  posts (events (upload_file E (Some [])) w) = [].
Proof.
  assert (Hnone : events (upload_file E None) w = []) by now apply events_same.
  assert (Hnil : events (upload_file E (Some [])) w = []) by now apply events_same.
  rewrite Hnone, Hnil. repeat split.
Qed.

(** C4.  When [get_license] returns the empty string, [upload_file] on a
    non-empty list raises the missing-credential error; up to then it has only
    looked at the two settings files, and it has made no HTTP request. *)
Theorem upload_file_without_key (E : Env) (w : World) (f : pystr) (fs : list pystr) :
  result get_license w = Returned [] ->
  result (upload_file E (Some (f :: fs))) w = Raised (GrError SAVE_KEY_FIRST) /\
  events (upload_file E (Some (f :: fs))) w = read_settings w /\
  posts (events (upload_file E (Some (f :: fs))) w) = [] /\
  posts (trace (after (upload_file E (Some (f :: fs))) w)) = posts (trace w).
Proof.
  intros Hkey%result_get_license.
  assert (Hrun : upload_file E (Some (f :: fs)) w =
                 (Raised (GrError SAVE_KEY_FIRST), logs (read_settings w) w)).
  { rewrite upload_file_some. cbv zeta. now rewrite <- Hkey. }
  assert (Hev : events (upload_file E (Some (f :: fs))) w = read_settings w).
  { apply events_logs. unfold after. now rewrite Hrun. }
  unfold result, after. rewrite Hev, Hrun. simpl fst; simpl snd.
  repeat split.
  - apply posts_read_settings.
  - simpl. now rewrite posts_app, posts_read_settings, app_nil_r.
Qed.

(** *** Computations that do not touch the world *)

Lemma quiet_ret {A} (a : A) : quiet (ret a).
Proof. now exists (Returned a). Qed.

Lemma quiet_raise {A} (e : exn) : quiet (@raise A e).
Proof. now exists (Raised e). Qed.

Lemma quiet_bind {A B} (m : M A) (k : A -> M B) :
  quiet m -> (forall a, quiet (k a)) -> quiet (bind m k).
Proof.
  intros [[a|e] Hm] Hk.
  - destruct (Hk a) as [o Ho]. exists o. intros w. unfold bind. now rewrite Hm.
  - exists (Raised e). intros w. unfold bind. now rewrite Hm.
Qed.

Lemma quiet_raise_for_status (r : Response) : quiet (raise_for_status r).
Proof.
  unfold raise_for_status.
  destruct (_ && _)%bool; [apply quiet_raise | apply quiet_ret].
Qed.

Lemma quiet_response_json (r : Response) : quiet (response_json r).
Proof.
  unfold response_json. destruct (body r); [apply quiet_ret | apply quiet_raise].
Qed.

Lemma quiet_getitem (data : json) (key : pystr) : quiet (getitem data key).
Proof.
  destruct data; simpl; try apply quiet_raise.
  destruct (lookup key items); [apply quiet_ret | apply quiet_raise].
Qed.

Lemma quiet_dict_get (data : json) (key : pystr) (d : json) : quiet (dict_get data key d).
Proof. destruct data; simpl; try apply quiet_raise. apply quiet_ret. Qed.

Lemma quiet_iadd (total : number) (v : json) : quiet (iadd total v).
Proof.
  destruct total as [t|x], v; simpl;
    unfold int_add_float, float_add_int;
    try destruct (float_of_int _);
    first [apply quiet_raise | apply quiet_ret].
Qed.

Lemma quiet_join_value (sep : pystr) (v : json) : quiet (join_value sep v).
Proof.
  destruct v; simpl; try apply quiet_raise; try apply quiet_ret.
  destruct (all_str items); [apply quiet_ret | apply quiet_raise].
Qed.

Create HintDb quiet.
#[local] Hint Resolve quiet_ret quiet_raise quiet_raise_for_status
  quiet_response_json quiet_getitem quiet_dict_get quiet_iadd
  quiet_join_value : quiet.

Ltac quiet := repeat (apply quiet_bind; [|intro]); auto with quiet.

(** A guarded request whose handler returns: one POST, after which the world
    only has that request more in its trace, and nothing is raised. *)
Lemma guarded_post {A} (E : Env) (req : Request) (k : Response -> M A)
    (h : exn -> A) (w : World) :
  (forall r, quiet (k r)) ->
  exists a,
    try_except (bind (requests_post E req) k) (fun e => ret (h e)) w =
    (Returned a, log (EvPost req) w).
Proof.
  intros Hk. unfold try_except, bind, requests_post.
  destruct (backend E (posts (trace w)) req) as [e|r].
  - now exists (h e).
  - destruct (Hk r) as [[a|e] Ho]; rewrite Ho; [now exists a | now exists (h e)].
Qed.

(** Finds the guarded request of the goal and names what it returns. *)
Ltac guarded s Hs :=
  match goal with
  | |- context [@try_except ?A ?m ?hh ?w1] =>
      match m with
      | bind (requests_post ?E ?q) ?k =>
          match hh with
          | (fun e => ret (@?h e)) =>
              assert (exists a, @try_except A m hh w1 = (Returned a, log (EvPost q) w1))
                as [s Hs]
                by (apply (guarded_post E q k h w1); intro; quiet)
          end
      end
  end.

Lemma all_str_map (l : list pystr) : all_str (map JStr l) = Some l.
Proof. induction l as [|s l IH]; simpl; trivial. now rewrite IH. Qed.

Lemma is_empty_false (s : pystr) : s <> [] -> is_empty s = false.
Proof. now destruct s. Qed.

(** *** License verification *)

Lemma check_license_unfold (E : Env) (w : World) :
  check_license E w =
  (let base := setting DEFAULT_BACKEND (backend_url_txt w) in
   let key := setting [] (license_key_txt w) in
   if is_empty key then ret NO_LICENSE
   else
     try_except
       (bind (requests_post E (license_request (base ++ py "/api/license/verify") key))
          (fun resp =>
             raise_for_status resp ;;
             data <- response_json resp ;;
             plan <- getitem data (py "plan") ;;
             quota <- getitem data (py "quota_remaining") ;;
             ret (CHECK_MARK :: py " Plan: " ++ json_str E plan
                    ++ py " | Remaining: " ++ json_str E quota)))
       (fun e => ret (failure E e)))
    (logs (read_settings w) w).
Proof.
  unfold check_license.
  exact (settings_then
           (fun base key =>
              if is_empty key then ret NO_LICENSE
              else
                try_except
                  (bind (requests_post E
                           (license_request (base ++ py "/api/license/verify") key))
                     (fun resp =>
                        raise_for_status resp ;;
                        data <- response_json resp ;;
                        plan <- getitem data (py "plan") ;;
                        quota <- getitem data (py "quota_remaining") ;;
                        ret (CHECK_MARK :: py " Plan: " ++ json_str E plan
                               ++ py " | Remaining: " ++ json_str E quota)))
                  (fun e => ret (failure E e))) w).
Qed.

(** C8, as the code has it.  [check_license] never raises.  With no stored
    key it returns the no-license line without any HTTP request.  With a key
    it sends exactly one POST to [<backend>/api/license/verify]; a transport
    failure and a 4xx or 5xx response each give the failure line carrying the
    exception's text; a response of any other status whose JSON body is an
    object with [plan] and [quota_remaining] gives the status line built from
    these two fields. *)
Theorem check_license_spec (E : Env) (w : World) (base key : pystr) :
  result get_backend w = Returned base ->
  result get_license w = Returned key ->
  let req := license_request (base ++ py "/api/license/verify") key in
  let out := result (check_license E) w in
  (exists s, out = Returned s) /\
  (key = [] ->
   out = Returned NO_LICENSE /\ posts (events (check_license E) w) = []) /\
  (key <> [] ->
   posts (events (check_license E) w) = [req] /\
   (forall e, backend E (posts (trace w)) req = PostRaises e ->
              out = Returned (failure E e)) /\
   (forall r, backend E (posts (trace w)) req = PostOk r ->
              is_4xx_5xx r = true ->
              out = Returned (failure E (HTTPError r))) /\
   (forall r items plan quota,
       backend E (posts (trace w)) req = PostOk r ->
       is_4xx_5xx r = false ->
       body r = Some (JObj items) ->
       lookup (py "plan") items = Some plan ->
       lookup (py "quota_remaining") items = Some quota ->
       out = Returned (CHECK_MARK :: py " Plan: " ++ json_str E plan
                         ++ py " | Remaining: " ++ json_str E quota))).
Proof.
  intros Hbase%result_get_backend Hkey%result_get_license req out.
  subst out req. unfold result.
  assert (Hposts : posts (trace (logs (read_settings w) w)) = posts (trace w)).
  { simpl. now rewrite posts_app, posts_read_settings, app_nil_r. }
  rewrite check_license_unfold. cbv zeta. rewrite <- Hbase, <- Hkey.
  split; [|split].
  - destruct (is_empty key); [now eexists|].
    guarded s Hs. rewrite Hs. now eexists.
  - intros ->. split; trivial.
    erewrite events_logs; [apply posts_read_settings|].
    unfold after. rewrite check_license_unfold. cbv zeta. now rewrite <- Hkey.
  - intros Hne. rewrite (is_empty_false key Hne).
    split; [|split; [|split]].
    + erewrite events_logs with (evs := read_settings w ++ [EvPost _]).
      * rewrite posts_app, posts_read_settings. reflexivity.
      * unfold after. rewrite check_license_unfold. cbv zeta.
        rewrite <- Hbase, <- Hkey, (is_empty_false key Hne).
        guarded s Hs. rewrite Hs. simpl. now rewrite log_logs, logs_logs.
    + intros e He. unfold try_except, bind, requests_post.
      rewrite Hposts, He. reflexivity.
    + intros r Hr H4. unfold try_except, bind, requests_post, raise_for_status.
      rewrite Hposts, Hr. unfold is_4xx_5xx in H4. rewrite H4. reflexivity.
    + intros r items plan quota Hr H4 Hbody Hplan Hquota.
      unfold try_except, bind, requests_post, raise_for_status, response_json.
      rewrite Hposts, Hr. unfold is_4xx_5xx in H4. rewrite H4. simpl.
      rewrite Hbody. simpl. rewrite Hplan. simpl. rewrite Hquota. reflexivity.
Qed.

(** *** Chat *)

Lemma chat_unfold (E : Env) (msg mode : pystr) (w : World) :
  chat E msg mode w =
  (let base := setting DEFAULT_BACKEND (backend_url_txt w) in
   let key := setting [] (license_key_txt w) in
   if is_empty key then raise (GrError SAVE_KEY_FIRST)
   else
     try_except
       (bind (requests_post E (chat_request (base ++ py "/api/chat") key msg mode))
          (fun r =>
             raise_for_status r ;;
             data <- response_json r ;;
             answer <- getitem data (py "answer") ;;
             cites <- dict_get data (py "citations") (JArr []) ;;
             joined <- join_value (py ", ") cites ;;
             ret (answer, py "Citations: " ++ joined)))
       (fun e => ret (JStr (failure E e), [])))
    (logs (read_settings w) w).
Proof.
  unfold chat.
  exact (settings_then
           (fun base key =>
              if is_empty key then raise (GrError SAVE_KEY_FIRST)
              else
                try_except
                  (bind (requests_post E
                           (chat_request (base ++ py "/api/chat") key msg mode))
                     (fun r =>
                        raise_for_status r ;;
                        data <- response_json r ;;
                        answer <- getitem data (py "answer") ;;
                        cites <- dict_get data (py "citations") (JArr []) ;;
                        joined <- join_value (py ", ") cites ;;
                        ret (answer, py "Citations: " ++ joined)))
                  (fun e => ret (JStr (failure E e), []))) w).
Qed.

(** C5, as the code has it.  With a key stored, [chat msg mode] sends one POST to
    [<backend>/api/chat] and always returns a pair.  When the POST raises
    (a transport failure [e], or the [HTTPError] of a 4xx or 5xx response such
    as 500) the pair is the failure line, which begins with the cross mark
    and carries the exception's text, and the empty string.  When the
    response passes and its JSON body is an object with an [answer] and with
    [citations] a list of strings (or absent), the pair is that answer and
    ["Citations: "] followed by the citations joined with [", "]. *)
Theorem chat_spec (E : Env) (w : World) (base key msg mode : pystr) :
  result get_backend w = Returned base ->
  result get_license w = Returned key ->
  key <> [] ->
  let req := chat_request (base ++ py "/api/chat") key msg mode in
  let out := result (chat E msg mode) w in
  posts (events (chat E msg mode) w) = [req] /\
  (exists pair, out = Returned pair) /\
  (forall e, backend E (posts (trace w)) req = PostRaises e ->
             out = Returned (JStr (CROSS_MARK :: py " " ++ exn_str E e), [])) /\
  (forall r, backend E (posts (trace w)) req = PostOk r ->
             (status_code r = 500%Z \/ is_4xx_5xx r = true) ->
             out = Returned (JStr (CROSS_MARK :: py " " ++ exn_str E (HTTPError r)), [])) /\
  (forall r items answer cites,
      backend E (posts (trace w)) req = PostOk r ->
      is_4xx_5xx r = false ->
      body r = Some (JObj items) ->
      lookup (py "answer") items = Some answer ->
      (lookup (py "citations") items = Some (JArr (map JStr cites)) \/
       lookup (py "citations") items = None /\ cites = []) ->
      out = Returned (answer, py "Citations: " ++ join (py ", ") cites)).
Proof.
  intros Hbase%result_get_backend Hkey%result_get_license Hne req out.
  subst out req. unfold result.
  assert (Hposts : posts (trace (logs (read_settings w) w)) = posts (trace w)).
  { simpl. now rewrite posts_app, posts_read_settings, app_nil_r. }
  assert (Hrun := chat_unfold E msg mode w). cbv zeta in Hrun.
  rewrite <- Hbase, <- Hkey, (is_empty_false key Hne) in Hrun.
  split; [|split; [|split; [|split]]].
  - erewrite events_logs with (evs := read_settings w ++ [EvPost _]).
    + rewrite posts_app, posts_read_settings. reflexivity.
    + unfold after. rewrite Hrun. guarded p Hp. rewrite Hp. simpl.
      now rewrite log_logs, logs_logs.
  - rewrite Hrun. guarded p Hp. rewrite Hp. now eexists.
  - intros e He. rewrite Hrun. unfold try_except, bind, requests_post.
    rewrite Hposts, He. reflexivity.
  - intros r Hr H4. rewrite Hrun.
    assert (H4' : is_4xx_5xx r = true).
    { destruct H4 as [H5|]; trivial. unfold is_4xx_5xx. now rewrite H5. }
    unfold try_except, bind, requests_post, raise_for_status.
    rewrite Hposts, Hr. unfold is_4xx_5xx in H4'. rewrite H4'. reflexivity.
  - intros r items answer cites Hr H4 Hbody Hans Hcites. rewrite Hrun.
    unfold try_except, bind, requests_post, raise_for_status, response_json.
    rewrite Hposts, Hr. unfold is_4xx_5xx in H4. rewrite H4. simpl.
    rewrite Hbody. simpl. rewrite Hans. simpl.
    destruct Hcites as [Hc|[Hc ->]]; rewrite Hc; simpl.
    + now rewrite all_str_map.
    + reflexivity.
Qed.

(** *** Upload *)

Lemma open_some (E : Env) (f : pystr) (w : World) :
  open_rb E f <> None ->
  open_ E f w = (Returned (contents E f), log (EvOpen f) w).
Proof.
  unfold open_, contents. now destruct (open_rb E f).
Qed.

Lemma posts_log_open (f : pystr) (w : World) :
  posts (trace (log (EvOpen f) w)) = posts (trace w).
Proof. simpl. now rewrite posts_app, app_nil_r. Qed.

Lemma posts_log_post (q : Request) (w : World) :
  posts (trace (log (EvPost q) w)) = posts (trace w) ++ [q].
Proof. simpl. now rewrite posts_app. Qed.

(** What the loop does with a response it carries on from. *)
Lemma accepted_adds (r : Response) (total : Z) (w : World) :
  accepted r = true ->
  (status_code r =? 200)%Z = true /\
  (data <- response_json r ;;
   added <- dict_get data (py "chunks_added") (JInt 0) ;;
   iadd (PyInt total) added) w = (Returned (PyInt (total + chunks r)), w).
Proof.
  unfold accepted, chunks, chunks_added, response_json, bind.
  intros [H200 Hc]%andb_prop. split; trivial.
  destruct (body r) as [[| | | | |items|]|]; try discriminate. simpl.
  destruct (lookup (py "chunks_added") items) as [[| | | | | |]|];
    try discriminate; reflexivity.
Qed.

(** One turn of the loop on a file that opens and whose POST is answered. *)
Lemma upload_loop_step (E : Env) (url key f : pystr) (rest : list pystr)
    (total : number) (w : World) (r : Response) :
  open_rb E f <> None ->
  backend E (posts (trace w)) (upload_request E url key f (contents E f)) = PostOk r ->
  let q := upload_request E url key f (contents E f) in
  let w' := logs [EvOpen f; EvPost q] w in
  upload_loop E url key (f :: rest) total w =
  if (status_code r =? 200)%Z
  then (data <- response_json r ;;
        added <- dict_get data (py "chunks_added") (JInt 0) ;;
        total_chunks' <- iadd total added ;;
        upload_loop E url key rest total_chunks') w'
  else (Returned (upload_failed f (text r)), w').
Proof.
  intros Hopen Hr q w'. simpl upload_loop. unfold bind at 1.
  rewrite (open_some E f w Hopen). unfold bind at 1, requests_post.
  rewrite posts_log_open. fold q in Hr |- *. rewrite Hr.
  replace (log (EvPost q) (log (EvOpen f) w)) with w'
    by (unfold w'; now rewrite !log_logs, logs_logs).
  now destruct (status_code r =? 200)%Z.
Qed.

Lemma posts_step (f : pystr) (q : Request) (w : World) :
  posts (trace (logs [EvOpen f; EvPost q] w)) = posts (trace w) ++ [q].
Proof. simpl. now rewrite posts_app. Qed.




(** ** Export writer *)

(** C2.  [export_xlsx] of the empty string saves a workbook of two sheets.
    ["Findings"] has one row, the 11 fixed headers, and no row after it.
    ["Output"] has its heading row ["Output"] and after it one row, which
    holds the empty string; exactly one row of that sheet holds the empty
    string. *)
Theorem export_xlsx_empty (E : Env) (now : pystr) :
  let wb := snd (export_xlsx E now []) in
  wb = [mkSheet (py "Findings") [headers];
        mkSheet (py "Output") [[py "Output"]; [[]]]] /\
  List.length headers = 11%nat /\
  (exists s, sheet_named wb (py "Findings") = Some s /\
             rows s = [headers] /\ tl (rows s) = []) /\
  (exists s, sheet_named wb (py "Output") = Some s /\
             tl (rows s) = [[[]]] /\ count_rows [[]] s = 1%nat).
Proof.
  repeat split; eexists; repeat split.
Qed.

(** * Concrete runs *)

Ltac nonempty := let H := fresh in intro H; vm_compute in H; discriminate H.

Lemma save_license_spec_witness :
  run (save_license (py " short ")) with_key =
    (Raised (GrError (py "License looks too short.")), with_key) /\
  result (save_license (py "  abcdefgh-1234 ")) no_settings = Returned SAVED /\
  license_key_txt (after (save_license (py "  abcdefgh-1234 ")) no_settings) =
    Some (py "abcdefgh-1234").
Proof.
  split.
  - apply (save_license_spec (py " short ") with_key). vm_compute. lia.
  - destruct (save_license_spec (py "  abcdefgh-1234 ") no_settings) as (_ & _ & H).
    destruct H as (Hres & Hfile & _); [vm_compute; lia|reflexivity|].
    split; assumption.
Defined.


Lemma upload_file_without_key_witness :
  result get_license no_settings = Returned [] /\
  result (upload_file (sample_env unreachable) (Some [py "a.txt"])) no_settings =
    Raised (GrError SAVE_KEY_FIRST) /\
  events (upload_file (sample_env unreachable) (Some [py "a.txt"])) no_settings =
    read_settings no_settings /\
  posts (events (upload_file (sample_env unreachable) (Some [py "a.txt"])) no_settings) = [] /\
  posts (trace (after (upload_file (sample_env unreachable) (Some [py "a.txt"])) no_settings)) =
    posts (trace no_settings).
Proof.
  split; [reflexivity|].
  apply (upload_file_without_key (sample_env unreachable) no_settings (py "a.txt") []).
  reflexivity.
Defined.

(** C8 fails for a response that is neither 2xx nor 4xx/5xx: on status 300
    with a body that carries a plan and a quota, [check_license] returns the
    status line, not a failure line. *)
Lemma check_license_status_300 :
  is_2xx (mkResponse 300 [] (Some license_body)) = false /\
  result (check_license (sample_env (always 300 [] (Some license_body)))) with_key =
    Returned (CHECK_MARK :: py " Plan: pro | Remaining: 5").
Proof. split; reflexivity. Qed.

Lemma check_license_spec_witness :
  result get_backend with_key = Returned DEFAULT_BACKEND /\
  result get_license with_key = Returned (py "abcdefgh") /\
  result (check_license (sample_env (always 200 [] (Some license_body)))) with_key =
    Returned (CHECK_MARK :: py " Plan: pro | Remaining: 5") /\
  result (check_license (sample_env (always 503 [] None))) with_key =
    Returned (CROSS_MARK :: py " 503 Error") /\
  result (check_license (sample_env unreachable)) with_key =
    Returned (CROSS_MARK :: py " Connection refused") /\
  result (check_license (sample_env unreachable)) no_settings = Returned NO_LICENSE /\
  posts (events (check_license (sample_env unreachable)) no_settings) = [].
Proof.
  split; [reflexivity|]. split; [reflexivity|].
  split; [|split; [|split]].
  - destruct (check_license_spec (sample_env (always 200 [] (Some license_body)))
                with_key DEFAULT_BACKEND (py "abcdefgh") eq_refl eq_refl)
      as (_ & _ & Hk).
    destruct Hk as (_ & _ & _ & Hok); [nonempty|].
    exact (Hok (mkResponse 200 [] (Some license_body)) _ _ _
             eq_refl eq_refl eq_refl eq_refl eq_refl).
  - destruct (check_license_spec (sample_env (always 503 [] None))
                with_key DEFAULT_BACKEND (py "abcdefgh") eq_refl eq_refl)
      as (_ & _ & Hk).
    destruct Hk as (_ & _ & H5 & _); [nonempty|].
    exact (H5 (mkResponse 503 [] None) eq_refl eq_refl).
  - destruct (check_license_spec (sample_env unreachable)
                with_key DEFAULT_BACKEND (py "abcdefgh") eq_refl eq_refl)
      as (_ & _ & Hk).
    destruct Hk as (_ & He & _); [nonempty|].
    exact (He _ eq_refl).
  - destruct (check_license_spec (sample_env unreachable)
                no_settings DEFAULT_BACKEND [] eq_refl eq_refl)
      as (_ & Hnone & _).
    exact (Hnone eq_refl).
Defined.

Lemma chat_spec_witness :
  result get_backend with_key = Returned DEFAULT_BACKEND /\
  result get_license with_key = Returned (py "abcdefgh") /\
  py "abcdefgh" <> [] /\
  result (chat (sample_env (always 500 (py "boom") None)) (py "hi") (py "answer")) with_key =
    Returned (JStr (CROSS_MARK :: py " 500 Error"), []) /\
  result (chat (sample_env unreachable) (py "hi") (py "answer")) with_key =
    Returned (JStr (CROSS_MARK :: py " Connection refused"), []) /\
  result (chat (sample_env (always 200 [] (Some chat_body))) (py "hi") (py "draft")) with_key =
    Returned (JStr (py "42"), py "Citations: a.pdf, b.pdf").
Proof.
  split; [reflexivity|]. split; [reflexivity|]. split; [nonempty|].
  split; [|split].
  - destruct (chat_spec (sample_env (always 500 (py "boom") None)) with_key
                DEFAULT_BACKEND (py "abcdefgh") (py "hi") (py "answer")
                eq_refl eq_refl) as (_ & _ & _ & H5 & _); [nonempty|].
    exact (H5 (mkResponse 500 (py "boom") None) eq_refl (or_introl eq_refl)).
  - destruct (chat_spec (sample_env unreachable) with_key
                DEFAULT_BACKEND (py "abcdefgh") (py "hi") (py "answer")
                eq_refl eq_refl) as (_ & _ & He & _); [nonempty|].
    exact (He _ eq_refl).
  - destruct (chat_spec (sample_env (always 200 [] (Some chat_body))) with_key
                DEFAULT_BACKEND (py "abcdefgh") (py "hi") (py "draft")
                eq_refl eq_refl) as (_ & _ & _ & _ & Hok); [nonempty|].
    exact (Hok (mkResponse 200 [] (Some chat_body)) _ (JStr (py "42"))
             [py "a.pdf"; py "b.pdf"] eq_refl eq_refl eq_refl eq_refl
             (or_introl eq_refl)).
Defined.



(** * Further properties *)

(** ** Trimming *)

Lemma lstrip_fixed (s : pystr) :
  match s with [] => True | c :: _ => isspace c = false end -> lstrip s = s.
Proof. destruct s as [|c s]; simpl; trivial. now intros ->. Qed.

Lemma lstrip_head (s : pystr) :
  match lstrip s with [] => True | c :: _ => isspace c = false end.
Proof.
  induction s as [|c s IH]; simpl; trivial.
  destruct (isspace c) eqn:Hc; trivial.
Qed.

Lemma lstrip_idem (s : pystr) : lstrip (lstrip s) = lstrip s.
Proof. apply lstrip_fixed, lstrip_head. Qed.

Lemma rstrip_idem (s : pystr) : rstrip (rstrip s) = rstrip s.
Proof. unfold rstrip. now rewrite rev_involutive, lstrip_idem. Qed.

Lemma rstrip_head (s : pystr) :
  match s with [] => True | c :: _ => isspace c = false end ->
  match rstrip s with [] => True | c :: _ => isspace c = false end.
Proof.
  destruct s as [|c s]; [trivial|]. intros Hc. now rewrite rstrip_cons.
Qed.

Lemma strip_idem (s : pystr) : strip (strip s) = strip s.
Proof.
  unfold strip.
  rewrite (lstrip_fixed (rstrip (lstrip s))) by apply rstrip_head, lstrip_head.
  apply rstrip_idem.
Qed.

Lemma lstrip_blank (s : pystr) : blank s = true -> lstrip s = [].
Proof.
  induction s as [|c s IH]; simpl; trivial.
  intros [Hc Hs]%andb_prop. rewrite Hc. auto.
Qed.

Lemma strip_blank (s : pystr) : blank s = true -> strip s = [].
Proof. intros H. unfold strip. now rewrite (lstrip_blank s H). Qed.

Lemma universal_newlines_no_cr (s : pystr) :
  ~ In CR s -> universal_newlines s = s.
Proof.
  induction s as [|c s IH]; trivial. intros Hno.
  assert (Hc : (c =? 0x0D) = false).
  { apply N.eqb_neq. intros ->. apply Hno. now left. }
  simpl. rewrite Hc. f_equal. apply IH. intros H. apply Hno. now right.
Qed.

Lemma universal_newlines_blank (s : pystr) :
  blank s = true -> blank (universal_newlines s) = true.
Proof.
  assert (H : forall n s, (List.length s <= n)%nat -> blank s = true ->
                          blank (universal_newlines s) = true).
  { induction n as [|n IH]; intros [|c t] Hlen Hb; trivial; simpl in Hlen; [lia|].
    simpl in Hb. apply andb_prop in Hb as [Hc Ht]. simpl.
    destruct (c =? 0x0D).
    - destruct t as [|d t']; [reflexivity|].
      simpl in Ht. apply andb_prop in Ht as [Hd Ht'].
      destruct (d =? 0x0A); simpl.
      + apply IH; [simpl in Hlen; lia | exact Ht'].
      + apply (IH (d :: t')); [simpl in *; lia | simpl; now rewrite Hd].
    - simpl. rewrite Hc. apply IH; [lia | exact Ht]. }
  intros Hb. now apply (H (List.length s)).
Qed.

(** ** Settings store, further *)

Lemma get_license_after (w w' : World) :
  license_key_txt w' = license_key_txt w ->
  result get_license w' = result get_license w.
Proof. unfold result. rewrite !get_license_run. simpl. now intros ->. Qed.

Lemma get_backend_after (w w' : World) :
  backend_url_txt w' = backend_url_txt w ->
  result get_backend w' = result get_backend w.
Proof. unfold result. rewrite !get_backend_run. simpl. now intros ->. Qed.

(** X1.  A URL that begins with [http] and whose trimmed form can be
    encoded as UTF-8 and has no carriage return is saved, and [get_backend]
    then returns the trimmed URL, which still begins with [http]. *)
Theorem save_backend_round_trip (url : pystr) (w : World) :
  startswith url (py "http") = true ->
  encodable (strip url) = true ->
  ~ In CR (strip url) ->
  result (save_backend url) w = Returned SAVED /\
  result get_backend (after (save_backend url) w) = Returned (strip url) /\
  startswith (strip url) (py "http") = true.
Proof.
  intros Hhttp Henc Hcr. unfold result, after.
  rewrite (save_backend_accept url w Hhttp Henc), get_backend_run. simpl.
  rewrite (universal_newlines_no_cr _ Hcr), strip_idem.
  repeat split. now apply startswith_http_strip.
Qed.

(** X2.  A key of at least 8 characters once trimmed, whose trimmed form
    can be encoded as UTF-8 and has no carriage return, is saved, and
    [get_license] then returns the trimmed key, which is not empty. *)
Theorem save_license_round_trip (key : pystr) (w : World) :
  (8 <= List.length (strip key))%nat ->
  encodable (strip key) = true ->
  ~ In CR (strip key) ->
  result (save_license key) w = Returned SAVED /\
  result get_license (after (save_license key) w) = Returned (strip key) /\
  strip key <> [].
Proof.
  intros Hlen Henc Hcr. unfold result, after.
  rewrite (save_license_accept key w Hlen Henc), get_license_run. simpl.
  rewrite (universal_newlines_no_cr _ Hcr), strip_idem.
  repeat split. intros H. rewrite H in Hlen. simpl in Hlen. lia.
Qed.

(** X3.  The two settings do not interfere: whatever [save_backend] does,
    the license file and what [get_license] returns are as before; whatever
    [save_license] does, the backend file and what [get_backend] returns are
    as before. *)
Theorem settings_do_not_interfere (url key : pystr) (w : World) :
  license_key_txt (after (save_backend url) w) = license_key_txt w /\
  result get_license (after (save_backend url) w) = result get_license w /\
  backend_url_txt (after (save_license key) w) = backend_url_txt w /\
  result get_backend (after (save_license key) w) = result get_backend w.
Proof.
  assert (Hb : license_key_txt (after (save_backend url) w) = license_key_txt w).
  { unfold after. destruct (startswith url (py "http")) eqn:H.
    - destruct (encodable (strip url)) eqn:He.
      + now rewrite (save_backend_accept url w H He).
      + now rewrite (save_backend_garbled url w H He).
    - now rewrite (save_backend_reject url w H). }
  assert (Hl : backend_url_txt (after (save_license key) w) = backend_url_txt w).
  { unfold after.
    destruct (Nat.lt_ge_cases (List.length (strip key)) 8) as [H|H].
    - now rewrite (save_license_reject key w H).
    - destruct (encodable (strip key)) eqn:He.
      + now rewrite (save_license_accept key w H He).
      + now rewrite (save_license_garbled key w H He). }
  repeat split; trivial.
  - now apply get_license_after.
  - now apply get_backend_after.
Qed.

(** ** Backend client, further *)

Lemma posts_after_settings (w : World) :
  posts (trace (logs (read_settings w) w)) = posts (trace w).
Proof. simpl. now rewrite posts_app, posts_read_settings, app_nil_r. Qed.

(** X4.  [chat] with no license key stored raises the missing-credential
    error for every message and mode; it has only looked at the two settings
    files and has made no HTTP request. *)
Theorem chat_without_key (E : Env) (w : World) (msg mode : pystr) :
  result get_license w = Returned [] ->
  result (chat E msg mode) w = Raised (GrError SAVE_KEY_FIRST) /\
  events (chat E msg mode) w = read_settings w /\
  posts (events (chat E msg mode) w) = [].
Proof.
  intros Hkey%result_get_license.
  assert (Hrun : chat E msg mode w =
                 (Raised (GrError SAVE_KEY_FIRST), logs (read_settings w) w)).
  { rewrite chat_unfold. cbv zeta. now rewrite <- Hkey. }
  assert (Hev : events (chat E msg mode) w = read_settings w).
  { apply events_logs. unfold after. now rewrite Hrun. }
  unfold result. rewrite Hev, Hrun. repeat split. apply posts_read_settings.
Qed.

(** X5.  A license file that holds only blanks counts as no key: then
    [get_license] returns the empty string, [check_license] returns the
    no-license line, [chat] and [upload_file] on a non-empty list raise the
    missing-credential error, and none of them makes an HTTP request. *)
Theorem blank_license_is_no_license (E : Env) (w : World) (s msg mode f : pystr)
    (fs : list pystr) :
  license_key_txt w = Some s ->
  blank s = true ->
  result get_license w = Returned [] /\
  result (check_license E) w = Returned NO_LICENSE /\
  result (chat E msg mode) w = Raised (GrError SAVE_KEY_FIRST) /\
  result (upload_file E (Some (f :: fs))) w = Raised (GrError SAVE_KEY_FIRST) /\
  posts (trace (after (check_license E) w)) = posts (trace w) /\
  posts (trace (after (chat E msg mode) w)) = posts (trace w) /\
  posts (trace (after (upload_file E (Some (f :: fs))) w)) = posts (trace w).
Proof.
  intros Hfile Hblank.
  assert (Hkey : setting [] (license_key_txt w) = []).
  { rewrite Hfile. simpl. apply strip_blank. now apply universal_newlines_blank. }
  unfold result, after.
  rewrite get_license_run, check_license_unfold, chat_unfold, upload_file_some.
  cbv zeta. rewrite Hkey. simpl.
  rewrite posts_app, posts_read_settings, app_nil_r. repeat split.
Qed.

(** X6.  With a key stored, whatever the backend does, [chat] returns a
    pair of one of two kinds.  Either the failure pair: the failure line of
    some exception and the empty string.  Or the backend answered, with a
    status outside 400..599 and a JSON object that has an [answer]; then the
    pair is that answer and a string that begins with ["Citations: "]. *)
Theorem chat_outcome (E : Env) (w : World) (base key msg mode : pystr) :
  result get_backend w = Returned base ->
  result get_license w = Returned key ->
  key <> [] ->
  exists first second,
    result (chat E msg mode) w = Returned (first, second) /\
    ((exists e, first = JStr (failure E e) /\ second = []) \/
     (exists r items joined,
         backend E (posts (trace w))
           (chat_request (base ++ py "/api/chat") key msg mode) = PostOk r /\
         is_4xx_5xx r = false /\
         body r = Some (JObj items) /\
         lookup (py "answer") items = Some first /\
         second = py "Citations: " ++ joined)).
Proof.
  intros Hbase%result_get_backend Hkey%result_get_license Hne.
  unfold result. rewrite chat_unfold. cbv zeta.
  rewrite <- Hbase, <- Hkey, (is_empty_false key Hne).
  unfold try_except, bind at 1, requests_post. rewrite posts_after_settings.
  destruct (backend E (posts (trace w)) _) as [e|r] eqn:Hr.
  { do 2 eexists. split; [reflexivity|]. left. now exists e. }
  unfold bind at 1, raise_for_status. fold (is_4xx_5xx r).
  destruct (is_4xx_5xx r) eqn:H4.
  { do 2 eexists. split; [reflexivity|]. left. now eexists. }
  unfold ret at 1. unfold bind at 1, response_json.
  destruct (body r) as [data|] eqn:Hbody.
  2:{ do 2 eexists. split; [reflexivity|]. left. now eexists. }
  unfold ret at 1. unfold bind at 1.
  destruct data as [| | | | |items|];
    try (do 2 eexists; split; [reflexivity|]; left; now eexists).
  simpl getitem. destruct (lookup (py "answer") items) as [answer|] eqn:Hans.
  2:{ do 2 eexists. split; [reflexivity|]. left. now eexists. }
  unfold ret at 1. unfold bind at 1. simpl dict_get. unfold ret at 1.
  unfold bind at 1.
  destruct (quiet_join_value (py ", ")
              (match lookup (py "citations") items with
               | Some v => v
               | None => JArr []
               end)) as [[joined|e] Hj]; rewrite Hj.
  - do 2 eexists. split; [reflexivity|]. right. exists r, items, joined.
    repeat split; trivial.
  - do 2 eexists. split; [reflexivity|]. left. now eexists.
Qed.

(** X7.  Whatever the backend does, [check_license] returns one of three
    lines and makes at most one HTTP request: the no-license line when no key
    is stored; the failure line of some exception; or the status line, and
    this only when the backend answered with a status outside 400..599 and a
    JSON object that has both [plan] and [quota_remaining]. *)
Theorem check_license_outcome (E : Env) (w : World) (base key : pystr) :
  result get_backend w = Returned base ->
  result get_license w = Returned key ->
  let out := result (check_license E) w in
  (List.length (posts (events (check_license E) w)) <= 1)%nat /\
  ((key = [] /\ out = Returned NO_LICENSE) \/
   (key <> [] /\ exists e, out = Returned (failure E e)) \/
   (key <> [] /\
    exists r items plan quota,
      backend E (posts (trace w))
        (license_request (base ++ py "/api/license/verify") key) = PostOk r /\
      is_4xx_5xx r = false /\
      body r = Some (JObj items) /\
      lookup (py "plan") items = Some plan /\
      lookup (py "quota_remaining") items = Some quota /\
      out = Returned (CHECK_MARK :: py " Plan: " ++ json_str E plan
                        ++ py " | Remaining: " ++ json_str E quota))).
Proof.
  intros Hbase%result_get_backend Hkey%result_get_license out. subst out.
  assert (Hrun := check_license_unfold E w). cbv zeta in Hrun.
  rewrite <- Hbase, <- Hkey in Hrun.
  destruct key as [|k key'] eqn:Hk.
  { split.
    - rewrite (events_logs _ w (read_settings w)).
      + rewrite posts_read_settings. simpl. lia.
      + unfold after. now rewrite Hrun.
    - left. unfold result. now rewrite Hrun. }
  rewrite <- Hk in *.
  assert (Hne : key <> []) by (rewrite Hk; discriminate).
  rewrite (is_empty_false key Hne) in Hrun.
  split.
  { rewrite (events_logs _ w (read_settings w ++ [EvPost
               (license_request (base ++ py "/api/license/verify") key)])).
    - rewrite posts_app, posts_read_settings. simpl. lia.
    - unfold after. rewrite Hrun. guarded s Hs. rewrite Hs. simpl.
      now rewrite log_logs, logs_logs. }
  right. unfold result. rewrite Hrun.
  unfold try_except, bind at 1, requests_post. rewrite posts_after_settings.
  destruct (backend E (posts (trace w)) _) as [e|r] eqn:Hr.
  { left. split; trivial. now exists e. }
  unfold bind at 1, raise_for_status. fold (is_4xx_5xx r).
  destruct (is_4xx_5xx r) eqn:H4.
  { left. split; trivial. now eexists. }
  unfold ret at 1. unfold bind at 1, response_json.
  destruct (body r) as [data|] eqn:Hbody.
  2:{ left. split; trivial. now eexists. }
  unfold ret at 1. unfold bind at 1.
  destruct data as [| | | | |items|];
    try (left; split; trivial; now eexists).
  simpl getitem. destruct (lookup (py "plan") items) as [plan|] eqn:Hplan.
  2:{ left. split; trivial. now eexists. }
  unfold ret at 1. unfold bind at 1.
  destruct (lookup (py "quota_remaining") items) as [quota|] eqn:Hquota.
  2:{ left. split; trivial. now eexists. }
  right. split; trivial. exists r, items, plan, quota. repeat split; trivial.
  unfold try_except, bind, requests_post, raise_for_status, response_json.
  rewrite posts_after_settings, Hr. unfold is_4xx_5xx in H4. rewrite H4. simpl.
  rewrite Hbody. simpl. rewrite Hplan. simpl. now rewrite Hquota.
Qed.

(** *** The settings files are only read *)

Lemma file_of_logs (evs : list Event) (w : World) (f : FileId) :
  file_of (logs evs w) f = file_of w f.
Proof. now destruct f. Qed.

Lemma readonly_ret {A} (a : A) : readonly (ret a).
Proof. now intros w f. Qed.

Lemma readonly_raise {A} (e : exn) : readonly (@raise A e).
Proof. now intros w f. Qed.

Lemma readonly_quiet {A} (m : M A) : quiet m -> readonly m.
Proof. intros [o Ho] w f. now rewrite Ho. Qed.

Lemma readonly_bind {A B} (m : M A) (k : A -> M B) :
  readonly m -> (forall a, readonly (k a)) -> readonly (bind m k).
Proof.
  intros Hm Hk w f. unfold bind. specialize (Hm w f).
  destruct (m w) as [[a|e] w']; simpl in *; [|exact Hm].
  now rewrite Hk.
Qed.

Lemma readonly_try {A} (m : M A) (h : exn -> M A) :
  readonly m -> (forall e, readonly (h e)) -> readonly (try_except m h).
Proof.
  intros Hm Hh w f. unfold try_except. specialize (Hm w f).
  destruct (m w) as [[a|e] w']; simpl in *; [exact Hm|].
  now rewrite Hh.
Qed.

Lemma readonly_exists (g : FileId) : readonly (exists_ g).
Proof. intros w f. now destruct f. Qed.

Lemma readonly_read_text (g : FileId) : readonly (read_text g).
Proof. intros w f. unfold read_text. destruct (file_of w g); now destruct f. Qed.

Lemma readonly_open (E : Env) (p : pystr) : readonly (open_ E p).
Proof. intros w f. unfold open_. destruct (open_rb E p); now destruct f. Qed.

Lemma readonly_post (E : Env) (q : Request) : readonly (requests_post E q).
Proof.
  intros w f. unfold requests_post.
  destruct (backend E (posts (trace w)) q); now destruct f.
Qed.

Lemma readonly_get_backend : readonly get_backend.
Proof. intros w f. rewrite get_backend_run. apply file_of_logs. Qed.

Lemma readonly_get_license : readonly get_license.
Proof. intros w f. rewrite get_license_run. apply file_of_logs. Qed.

Ltac readonly :=
  repeat first
    [ apply readonly_ret | apply readonly_raise | apply readonly_exists
    | apply readonly_read_text | apply readonly_open | apply readonly_post
    | apply readonly_get_backend | apply readonly_get_license
    | apply readonly_quiet; solve [quiet]
    | apply readonly_bind; [|intro]
    | apply readonly_try; [|intro] ].

Lemma readonly_upload_loop (E : Env) (url key : pystr) (fs : list pystr) :
  forall total, readonly (upload_loop E url key fs total).
Proof.
  induction fs as [|f fs IH]; intros total; simpl.
  - apply readonly_ret.
  - apply readonly_bind; [apply readonly_open|intros fh].
    apply readonly_bind; [apply readonly_post|intros r].
    destruct (negb _); [apply readonly_ret|].
    apply readonly_bind; [apply readonly_quiet; quiet|intros data].
    apply readonly_bind; [apply readonly_quiet; quiet|intros added].
    apply readonly_bind; [apply readonly_quiet; quiet|intros t'].
    apply IH.
Qed.

(** X8.  None of the three backend actions ever changes a settings file:
    after [check_license], [chat] or [upload_file], whatever the backend and
    the local files do and whether the action returns or raises, both files
    hold what they held. *)
Theorem backend_actions_keep_settings (E : Env) (msg mode : pystr)
    (files : option (list pystr)) (w : World) :
  let kept w' := backend_url_txt w' = backend_url_txt w /\
                 license_key_txt w' = license_key_txt w in
  kept (after (check_license E) w) /\
  kept (after (chat E msg mode) w) /\
  kept (after (upload_file E files) w).
Proof.
  assert (H1 : readonly (check_license E)).
  { unfold check_license. readonly. destruct (is_empty _); readonly. }
  assert (H2 : readonly (chat E msg mode)).
  { unfold chat. readonly. destruct (is_empty _); readonly. }
  assert (H3 : readonly (upload_file E files)).
  { unfold upload_file. destruct files as [[|f fs]|]; try apply readonly_ret.
    apply readonly_bind; [apply readonly_get_backend|intros base].
    apply readonly_bind; [apply readonly_get_license|intros key].
    destruct (is_empty key); [apply readonly_raise|apply readonly_upload_loop]. }
  intros kept. unfold kept, after.
  repeat split;
    first [ apply (H1 w BACKEND_FILE) | apply (H1 w LICENSE_FILE)
          | apply (H2 w BACKEND_FILE) | apply (H2 w LICENSE_FILE)
          | apply (H3 w BACKEND_FILE) | apply (H3 w LICENSE_FILE) ].
Qed.

(** *** Upload, further *)

(** An accepted run of files brings the loop to the files that follow. *)
Lemma upload_loop_prefix (E : Env) (url key : pystr) :
  forall (pre rest : list pystr) (total : Z) (w : World) (rs : list Response),
    (forall f, In f pre -> open_rb E f <> None) ->
    answers E (posts (trace w)) (upload_requests E url key pre) = map PostOk rs ->
    forallb accepted rs = true ->
    exists evs,
      upload_loop E url key (pre ++ rest) (PyInt total) w =
        upload_loop E url key rest (PyInt (total + sum_chunks rs)) (logs evs w) /\
      posts evs = upload_requests E url key pre.
Proof.
  induction pre as [|p pre IH]; intros rest total w rs Hopen Hans Hacc.
  - destruct rs; [|discriminate]. exists []. simpl.
    now rewrite Z.add_0_r, logs_nil.
  - destruct rs as [|r rs]; [discriminate|].
    simpl in Hans. injection Hans as Hr Hrest.
    simpl in Hacc. apply andb_prop in Hacc as [Hr_ok Hrs_ok].
    assert (Hp : open_rb E p <> None) by (apply Hopen; now left).
    simpl app. rewrite (upload_loop_step E url key p _ (PyInt total) w r Hp Hr).
    cbv zeta.
    set (q := upload_request E url key p (contents E p)) in *.
    destruct (accepted_adds r total (logs [EvOpen p; EvPost q] w) Hr_ok)
      as [H200 Hadd].
    rewrite H200.
    destruct (IH rest (total + chunks r)%Z (logs [EvOpen p; EvPost q] w) rs)
      as (evs & Hrun & Hposts); trivial.
    + intros g Hg. apply Hopen. now right.
    + now rewrite posts_step.
    + exists ([EvOpen p; EvPost q] ++ evs). split.
      * unfold bind in Hadd |- *.
        destruct (response_json r _) as [[data|e] w1]; [|discriminate].
        destruct (dict_get data _ _ w1) as [[added|e] w2]; [|discriminate].
        destruct (iadd _ added w2) as [[t'|e] w3]; [|discriminate].
        injection Hadd as -> ->. rewrite Hrun, logs_logs. simpl sum_chunks.
        now rewrite Z.add_assoc.
      * simpl. now rewrite Hposts.
Qed.

(** A 200 response the loop cannot take a number from makes it raise. *)
Lemma rejected_raises (r : Response) (total : number) (w : World) :
  unusable r = true ->
  exists e,
    (data <- response_json r ;;
     added <- dict_get data (py "chunks_added") (JInt 0) ;;
     iadd total added) w = (Raised e, w) /\
    (body r = None -> e = JSONDecodeError r).
Proof.
  unfold unusable, response_json, bind.
  destruct (body r) as [[| | | | |items|]|]; simpl;
    try (intros _; eexists; split; [reflexivity|discriminate]).
  - destruct (lookup (py "chunks_added") items) as [[| | | | | |]|];
      try discriminate; intros _; destruct total; eexists;
      (split; [reflexivity|discriminate]).
  - intros _. eexists. split; [reflexivity|trivial].
Qed.

(** X9.  With a key stored, the files before [f] opened and accepted:
    [upload_file] does not catch what goes wrong at [f].  If [f] cannot be
    opened the call raises the [OSError], having posted only the files
    before.  If the POST for [f] raises, the call raises the same exception.
    If the response is a 200 whose body is not JSON or not an object, or
    whose [chunks_added] is present and neither a number nor a boolean, the
    call raises too (the [JSONDecodeError] when the body is not JSON).  In
    the last two cases [f] has been posted, the files after it not. *)
Theorem upload_file_errors_propagate (E : Env) (w : World)
    (base key : pystr) (pre : list pystr) (f : pystr) (post : list pystr)
    (rs : list Response) :
  result get_backend w = Returned base ->
  result get_license w = Returned key ->
  key <> [] ->
  (forall g, In g pre -> open_rb E g <> None) ->
  let url := base ++ py "/api/upload" in
  let hist := posts (trace w) in
  answers E hist (upload_requests E url key pre) = map PostOk rs ->
  forallb accepted rs = true ->
  let call := upload_file E (Some (pre ++ f :: post)) in
  let q := upload_request E url key f (contents E f) in
  (open_rb E f = None ->
   result call w = Raised (OSError f) /\
   posts (events call w) = upload_requests E url key pre) /\
  (forall e,
      open_rb E f <> None ->
      backend E (hist ++ upload_requests E url key pre) q = PostRaises e ->
      result call w = Raised e /\
      posts (events call w) = upload_requests E url key (pre ++ [f])) /\
  (forall r,
      open_rb E f <> None ->
      backend E (hist ++ upload_requests E url key pre) q = PostOk r ->
      status_code r = 200%Z ->
      unusable r = true ->
      (exists e, result call w = Raised e /\
                 (body r = None -> e = JSONDecodeError r)) /\
      posts (events call w) = upload_requests E url key (pre ++ [f])).
Proof.
  intros Hbase%result_get_backend Hkey%result_get_license Hne Hopen url hist
         Hans Hacc call q.
  set (w0 := logs (read_settings w) w).
  assert (Hrun : call w = upload_loop E url key (pre ++ f :: post) (PyInt 0) w0).
  { unfold call. destruct pre as [|p pre']; simpl app;
      rewrite upload_file_some; cbv zeta;
      now rewrite <- Hbase, <- Hkey, (is_empty_false key Hne). }
  assert (Hhist : posts (trace w0) = hist) by apply posts_after_settings.
  destruct (upload_loop_prefix E url key pre (f :: post) 0%Z w0 rs)
    as (evs & Hpre & Hsent); trivial; [now rewrite Hhist|].
  rewrite Hpre in Hrun. set (w1 := logs evs w0) in *.
  assert (Hw1 : posts (trace w1) = hist ++ upload_requests E url key pre).
  { unfold w1. simpl. rewrite !posts_app, posts_read_settings, Hsent.
    now rewrite app_nil_r. }
  assert (Hdone : forall o tl,
             call w = (o, logs tl w1) ->
             result call w = o /\
             posts (events call w) = upload_requests E url key pre ++ posts tl).
  { intros o tl Hc. unfold result. rewrite Hc. split; trivial.
    rewrite (events_logs _ w (read_settings w ++ evs ++ tl)).
    - now rewrite !posts_app, posts_read_settings, Hsent.
    - unfold after. rewrite Hc. unfold w1, w0. now rewrite !logs_logs. }
  assert (Hreqs : upload_requests E url key (pre ++ [f]) =
                  upload_requests E url key pre ++ [q]).
  { unfold upload_requests. now rewrite map_app. }
  split; [|split].
  - intros Hnone.
    destruct (Hdone (Raised (OSError f)) [EvOpen f]) as [Hres Hev].
    + rewrite Hrun. simpl upload_loop. unfold bind at 1, open_.
      now rewrite Hnone.
    + split; trivial. rewrite Hev. simpl. apply app_nil_r.
  - intros e Hf He.
    destruct (Hdone (Raised e) [EvOpen f; EvPost q]) as [Hres Hev].
    + rewrite Hrun. simpl upload_loop. unfold bind at 1.
      rewrite (open_some E f w1 Hf). unfold bind at 1, requests_post.
      rewrite posts_log_open, Hw1. fold q. rewrite He.
      now rewrite !log_logs, logs_logs.
    + split; trivial. now rewrite Hev, Hreqs.
  - intros r Hf Hr H200 Hbad.
    assert (Hr' : backend E (posts (trace w1)) q = PostOk r) by now rewrite Hw1.
    assert (Hstep := upload_loop_step E url key f post
                       (PyInt (0 + sum_chunks rs)) w1 r Hf Hr').
    assert (Heq : (status_code r =? 200)%Z = true) by now apply Z.eqb_eq.
    cbv zeta in Hstep. fold q in Hstep. rewrite Heq in Hstep.
    destruct (rejected_raises r (PyInt (0 + sum_chunks rs))
                (logs [EvOpen f; EvPost q] w1) Hbad) as (e' & He' & Hjson').
    destruct (Hdone (Raised e') [EvOpen f; EvPost q]) as [Hres Hev].
    + rewrite Hrun, Hstep. unfold bind in He' |- *.
      destruct (response_json r _) as [[data|x] w2];
        [|now injection He' as -> ->].
      destruct (dict_get data _ _ w2) as [[added|x] w3];
        [|now injection He' as -> ->].
      destruct (iadd _ added w3) as [[t'|x] w4]; [discriminate|].
      now injection He' as -> ->.
    + split; [now exists e'|]. now rewrite Hev, Hreqs.
Qed.

(** Whatever happens, the loop has posted the first so many files, in order. *)
Lemma upload_loop_sends_prefix (E : Env) (url key : pystr) :
  forall (fs : list pystr) (total : number) (w : World),
  exists n evs,
    (n <= List.length fs)%nat /\
    snd (upload_loop E url key fs total w) = logs evs w /\
    posts evs = firstn n (upload_requests E url key fs).
Proof.
  induction fs as [|f fs IH]; intros total w.
  - exists 0%nat, []. simpl. now rewrite logs_nil.
  - simpl upload_loop. unfold bind at 1, open_.
    assert (Hone : forall (o : Outcome pystr) q,
               q = upload_request E url key f (contents E f) ->
               exists n evs,
                 (n <= List.length (f :: fs))%nat /\
                 snd (o, log (EvPost q) (log (EvOpen f) w)) = logs evs w /\
                 posts evs = firstn n (upload_requests E url key (f :: fs))).
    { intros o q ->. exists 1%nat, [EvOpen f; EvPost (upload_request E url key f (contents E f))].
      simpl. split; [lia|]. split; [|reflexivity].
      now rewrite !log_logs, logs_logs. }
    destruct (open_rb E f) as [fh|] eqn:Hopen.
    2:{ exists 0%nat, [EvOpen f]. simpl. split; [lia|]. now split. }
    assert (Hfh : contents E f = fh) by (unfold contents; now rewrite Hopen).
    unfold bind at 1, requests_post.
    destruct (backend E _ _) as [e|r]; [apply Hone; now rewrite Hfh|].
    destruct (negb _); [apply Hone; now rewrite Hfh|].
    unfold bind at 1.
    destruct (quiet_response_json r) as [[data|e] Hd]; rewrite Hd;
      [|apply Hone; now rewrite Hfh].
    unfold bind at 1.
    destruct (quiet_dict_get data (py "chunks_added") (JInt 0)) as [[added|e] Ha];
      rewrite Ha; [|apply Hone; now rewrite Hfh].
    unfold bind at 1.
    destruct (quiet_iadd total added) as [[t'|e] Ht]; rewrite Ht;
      [|apply Hone; now rewrite Hfh].
    destruct (IH t' (log (EvPost (upload_request E url key f fh)) (log (EvOpen f) w)))
      as (n & evs & Hn & Hsnd & Hposts).
    exists (S n), ([EvOpen f; EvPost (upload_request E url key f fh)] ++ evs).
    split; [simpl; lia|]. split.
    + rewrite Hsnd. now rewrite !log_logs, !logs_logs.
    + simpl. now rewrite Hposts, Hfh.
Qed.

(** X10.  Whatever the backend and the local files do, the requests
    [upload_file] makes are the upload requests of the first so many files
    of the list, in the order of the list: at most one request per file,
    none skipped, each to [<backend>/api/upload] with the stored key. *)
Theorem upload_file_posts_in_order (E : Env) (w : World) (base key : pystr)
    (fs : list pystr) :
  result get_backend w = Returned base ->
  result get_license w = Returned key ->
  exists n,
    (n <= List.length fs)%nat /\
    posts (events (upload_file E (Some fs)) w) =
      firstn n (upload_requests E (base ++ py "/api/upload") key fs).
Proof.
  intros Hbase%result_get_backend Hkey%result_get_license.
  destruct fs as [|f fs].
  { exists 0%nat. split; trivial. now rewrite events_same. }
  assert (Hrun := upload_file_some E f fs w). cbv zeta in Hrun.
  rewrite <- Hbase, <- Hkey in Hrun.
  destruct (is_empty key).
  - exists 0%nat. split; [lia|].
    rewrite (events_logs _ w (read_settings w)).
    + apply posts_read_settings.
    + unfold after. now rewrite Hrun.
  - destruct (upload_loop_sends_prefix E (base ++ py "/api/upload") key
                (f :: fs) (PyInt 0) (logs (read_settings w) w))
      as (n & evs & Hn & Hsnd & Hposts).
    exists n. split; trivial.
    rewrite (events_logs _ w (read_settings w ++ evs)).
    + now rewrite posts_app, posts_read_settings.
    + unfold after. now rewrite Hrun, Hsnd, logs_logs.
Qed.

(** ** Lines *)










(** ** Export writer, further *)










(** X16.  The path of an export depends on the clock reading only: two
    exports of the same kind go to the same file exactly when made at the
    same reading, whatever their contents, and a document never goes to the
    path of a spreadsheet. *)
Theorem export_paths (E : Env) (now1 now2 c1 c2 : pystr) :
  (fst (export_docx E now1 c1) = fst (export_docx E now2 c2) <-> now1 = now2) /\
  (fst (export_xlsx E now1 c1) = fst (export_xlsx E now2 c2) <-> now1 = now2) /\
  fst (export_docx E now1 c1) <> fst (export_xlsx E now2 c2).
Proof.
  unfold export_docx, export_xlsx, path_join. cbv zeta. simpl fst.
  split; [|split].
  - split; [|now intros ->]. intros H.
    apply app_inv_head in H. injection H as H. now apply app_inv_tail in H.
  - split; [|now intros ->]. intros H.
    apply app_inv_head in H. injection H as H. now apply app_inv_tail in H.
  - intros H. apply app_inv_head in H. discriminate H.
Qed.

(** ** Concrete runs of the further properties *)

Ltac absent :=
  let H := fresh in
  intro H; vm_compute in H;
  repeat (destruct H as [H|H]; [discriminate H|]); exact H.

Lemma save_backend_round_trip_witness :
  startswith (py "https://api.example.org  ") (py "http") = true /\
  encodable (strip (py "https://api.example.org  ")) = true /\
  ~ In CR (strip (py "https://api.example.org  ")) /\
  result (save_backend (py "https://api.example.org  ")) with_key = Returned SAVED /\
  result get_backend (after (save_backend (py "https://api.example.org  ")) with_key) =
    Returned (py "https://api.example.org") /\
  startswith (py "https://api.example.org") (py "http") = true.
Proof.
  split; [reflexivity|]. split; [reflexivity|]. split; [absent|].
  apply (save_backend_round_trip (py "https://api.example.org  ") with_key);
    [reflexivity|reflexivity|absent].
Defined.

Lemma save_license_round_trip_witness :
  (8 <= List.length (strip (py "  KEY-1234-5678 ")))%nat /\
  encodable (strip (py "  KEY-1234-5678 ")) = true /\
  ~ In CR (strip (py "  KEY-1234-5678 ")) /\
  result (save_license (py "  KEY-1234-5678 ")) no_settings = Returned SAVED /\
  result get_license (after (save_license (py "  KEY-1234-5678 ")) no_settings) =
    Returned (py "KEY-1234-5678") /\
  py "KEY-1234-5678" <> [].
Proof.
  split; [vm_compute; lia|]. split; [reflexivity|]. split; [absent|].
  apply (save_license_round_trip (py "  KEY-1234-5678 ") no_settings);
    [vm_compute; lia|reflexivity|absent].
Defined.

Lemma chat_without_key_witness :
  result get_license no_settings = Returned [] /\
  result (chat (sample_env (always 200 [] (Some chat_body))) (py "hi") (py "answer"))
    no_settings = Raised (GrError SAVE_KEY_FIRST) /\
  events (chat (sample_env (always 200 [] (Some chat_body))) (py "hi") (py "answer"))
    no_settings = read_settings no_settings /\
  posts (events (chat (sample_env (always 200 [] (Some chat_body))) (py "hi")
                   (py "answer")) no_settings) = [].
Proof.
  split; [reflexivity|].
  apply (chat_without_key (sample_env (always 200 [] (Some chat_body)))
           no_settings (py "hi") (py "answer")).
  reflexivity.
Defined.

Lemma blank_license_witness :
  license_key_txt (mkWorld None (Some (py "  " ++ [CR; LF])) []) =
    Some (py "  " ++ [CR; LF]) /\
  blank (py "  " ++ [CR; LF]) = true /\
  result get_license (mkWorld None (Some (py "  " ++ [CR; LF])) []) = Returned [] /\
  result (check_license (sample_env unreachable))
    (mkWorld None (Some (py "  " ++ [CR; LF])) []) = Returned NO_LICENSE.
Proof.
  split; [reflexivity|]. split; [reflexivity|].
  destruct (blank_license_is_no_license (sample_env unreachable)
              (mkWorld None (Some (py "  " ++ [CR; LF])) [])
              (py "  " ++ [CR; LF]) (py "hi") (py "answer") (py "a.txt") []
              eq_refl eq_refl) as (Hget & Hcheck & _).
  split; assumption.
Defined.

Lemma chat_outcome_witness :
  result get_backend with_key = Returned DEFAULT_BACKEND /\
  result get_license with_key = Returned (py "abcdefgh") /\
  py "abcdefgh" <> [] /\
  exists first second,
    result (chat (sample_env (always 200 [] (Some (JArr [])))) (py "hi") (py "answer"))
      with_key = Returned (first, second).
Proof.
  split; [reflexivity|]. split; [reflexivity|]. split; [nonempty|].
  destruct (chat_outcome (sample_env (always 200 [] (Some (JArr [])))) with_key
              DEFAULT_BACKEND (py "abcdefgh") (py "hi") (py "answer")
              eq_refl eq_refl) as (first & second & Hres & _); [nonempty|].
  now exists first, second.
Defined.

Lemma check_license_outcome_witness :
  result get_backend with_key = Returned DEFAULT_BACKEND /\
  result get_license with_key = Returned (py "abcdefgh") /\
  (List.length (posts (events (check_license (sample_env (always 200 [] (Some JNull))))
                         with_key)) <= 1)%nat.
Proof.
  split; [reflexivity|]. split; [reflexivity|].
  apply (check_license_outcome (sample_env (always 200 [] (Some JNull))) with_key
           DEFAULT_BACKEND (py "abcdefgh") eq_refl eq_refl).
Defined.

Lemma upload_file_errors_witness :
  let E := sample_env first_then_unreachable in
  let url := py "http://localhost:8000/api/upload" in
  let key := py "abcdefgh" in
  let call := upload_file E (Some [py "a.txt"; py "b.txt"; py "c.txt"]) in
  result get_backend with_key = Returned DEFAULT_BACKEND /\
  result get_license with_key = Returned key /\
  key <> [] /\
  (forall g, In g [py "a.txt"] -> open_rb E g <> None) /\
  answers E (posts (trace with_key)) (upload_requests E url key [py "a.txt"]) =
    map PostOk [four_chunks] /\
  forallb accepted [four_chunks] = true /\
  result call with_key = Raised (RequestException (py "Connection refused")) /\
  posts (events call with_key) =
    upload_requests E url key [py "a.txt"; py "b.txt"].
Proof.
  cbv zeta.
  assert (Hkey : py "abcdefgh" <> []) by nonempty.
  assert (Hopen : forall g, In g [py "a.txt"] ->
                            open_rb (sample_env first_then_unreachable) g <> None)
    by (intros g _; discriminate).
  split; [reflexivity|]. split; [reflexivity|]. split; [exact Hkey|].
  split; [exact Hopen|]. split; [reflexivity|]. split; [reflexivity|].
  destruct (upload_file_errors_propagate (sample_env first_then_unreachable)
              with_key DEFAULT_BACKEND (py "abcdefgh") [py "a.txt"] (py "b.txt")
              [py "c.txt"] [four_chunks] eq_refl eq_refl Hkey Hopen
              eq_refl eq_refl) as (_ & Hraise & _).
  apply (Hraise (RequestException (py "Connection refused")));
    [discriminate|reflexivity].
Defined.

Lemma upload_file_posts_in_order_witness :
  result get_backend with_key = Returned DEFAULT_BACKEND /\
  result get_license with_key = Returned (py "abcdefgh") /\
  exists n,
    (n <= 3)%nat /\
    posts (events (upload_file (sample_env first_only)
                     (Some [py "a.txt"; py "b.txt"; py "c.txt"])) with_key) =
      firstn n (upload_requests (sample_env first_only)
                  (py "http://localhost:8000/api/upload") (py "abcdefgh")
                  [py "a.txt"; py "b.txt"; py "c.txt"]).
Proof.
  split; [reflexivity|]. split; [reflexivity|].
  apply (upload_file_posts_in_order (sample_env first_only) with_key
           DEFAULT_BACKEND (py "abcdefgh") [py "a.txt"; py "b.txt"; py "c.txt"]
           eq_refl eq_refl).
Defined.



(** ** Where the claims fail *)

(** C5 fails at a status that is neither 2xx nor 4xx/5xx, and in the text of
    the second component: on status 300 with an answer and two citations
    [chat] returns the answer, not a failure pair, and the second component
    is the joined citations behind the label ["Citations: "]. *)
Lemma chat_status_300 :
  let E := sample_env (always 300 [] (Some chat_body)) in
  is_2xx (mkResponse 300 [] (Some chat_body)) = false /\
  result (chat E (py "hi") (py "answer")) with_key =
    Returned (JStr (py "42"), py "Citations: a.pdf, b.pdf") /\
  join (py ", ") [py "a.pdf"; py "b.pdf"] = py "a.pdf, b.pdf" /\
  pystr_eqb (py "Citations: a.pdf, b.pdf") (py "a.pdf, b.pdf") = false.
Proof. cbv zeta. repeat split. Qed.

(** C6 fails for a key that cannot be encoded: nine characters, the last a
    lone surrogate.  [save_license] raises the encoding error, not the
    validation error; the license file, which held a key, is left empty, and
    [get_license] then returns the empty string. *)
Lemma save_license_lone_surrogate :
  let key := py "abcdefgh" ++ [0xD800] in
  List.length (strip key) = 9%nat /\
  result (save_license key) with_key = Raised (UnicodeEncodeError key) /\
  license_key_txt with_key = Some (py "abcdefgh") /\
  license_key_txt (after (save_license key) with_key) = Some [] /\
  result get_license (after (save_license key) with_key) = Returned [].
Proof. cbv zeta. repeat split. Qed.


(** A float [chunks_added] does not raise: the total becomes a float. *)
Lemma upload_file_float_total :
  let r := mkResponse 200 [] (Some (JObj [(py "chunks_added", JFloat one_and_a_half)])) in
  let E := sample_env (always 200 [] (body r)) in
  unusable r = false /\
  result (upload_file E (Some [py "a.txt"])) with_key =
    Returned (uploaded_line E (PyFloat one_and_a_half)).
Proof. cbv zeta. split; reflexivity. Qed.
